(** * DrawView: world/window transform, attribute stack and drawing primitives

    A shallow embedding of [draw_view.py] (class [DrawView], a [QWidget]
    subclass) and the properties of its coordinate transform, its attribute
    stack and its primitives.

    Numbers: Python floats are read as real numbers ([R]), so every
    arithmetic step is exact; the integers handed over by the host widget
    ([width()], [height()], font metrics) are [Z].  Python exceptions and the
    mutation of [self] are kept: a method is a function from the object to an
    outcome ([Ok] or [Raise]) and the object as the method left it. *)

From Stdlib Require Import Reals Lra Lia ZArith List String Bool.
Import ListNotations.

Local Open Scope R_scope.

(** ** Python: exceptions, attribute access, float arithmetic *)

Module Py.

Inductive exn : Type :=
| AttributeError
| ZeroDivisionError.

Inductive result (A : Type) : Type :=
| Ok (a : A)
| Raise (e : exn).

Arguments Ok {A} a.
Arguments Raise {A} e.

Section Monad.
Variable S : Type.

(** A statement run on an object: its outcome and the object afterwards.
    The object survives an exception as the statement left it. *)
Definition M (A : Type) : Type := S -> result A * S.

Definition ret {A} (a : A) : M A := fun s => (Ok a, s).

Definition bind {A B} (m : M A) (k : A -> M B) : M B :=
  fun s =>
    match m s with
    | (Ok a, s') => k a s'
    | (Raise e, s') => (Raise e, s')
    end.

Definition raise {A} (e : exn) : M A := fun s => (Raise e, s).

(** [self.f] for an attribute every constructed object has. *)
Definition attr {A} (f : S -> A) : M A := fun s => (Ok (f s), s).

(** [self.f] for an attribute that exists only once assigned. *)
Definition getattr {A} (f : S -> option A) : M A :=
  fun s =>
    match f s with
    | Some a => (Ok a, s)
    | None => (Raise AttributeError, s)
    end.

(** [self.f = v], through the field's updater. *)
Definition setattr (upd : S -> S) : M unit := fun s => (Ok tt, upd s).
End Monad.

Arguments ret {S A} a.
Arguments bind {S A B} m k.
Arguments raise {S A} e.
Arguments attr {S A} f.
Arguments getattr {S A} f.
Arguments setattr {S} upd.

(** [a / b] on floats.  Where the source divides by the literal 2 the
    model writes the quotient directly. *)
Definition truediv {S} (a b : R) : M S R :=
  if Req_dec_T b 0 then raise ZeroDivisionError else ret (a / b).

(** [min(a, b)]: the first argument unless the second is smaller. *)
Definition min (a b : R) : R := if Rlt_dec b a then b else a.

(** [abs(a)]. *)
Definition abs (a : R) : R := Rabs a.

(** [x ** 0.5] on a float that is not negative. *)
Definition pow_half (x : R) : R := sqrt x.

(** [l.append(x)] and [l.pop()]: the end of the list is the top. *)
Definition append {A} (l : list A) (x : A) : list A := l ++ [x].

Definition pop {A} (l : list A) : option (A * list A) :=
  match rev l with
  | [] => None
  | x :: r => Some (x, rev r)
  end.

(** [[f(x) for x in l]] *)
Fixpoint comprehension {S A B} (f : A -> M S B) (l : list A)
  : M S (list B) :=
  match l with
  | [] => ret []
  | x :: l' =>
      bind (f x) (fun y =>
      bind (comprehension f l') (fun ys => ret (y :: ys)))
  end.

End Py.

Notation "m ;; k" := (Py.bind m (fun _ => k))
  (at level 61, right associativity).
Notation "x <- m ;; k" := (Py.bind m (fun x => k))
  (at level 61, m at next level, right associativity).

(** ** Qt value types, as documented by Qt *)

Module Qt.

Record QPointF : Type := mkPoint { px : R; py : R }.

(** [QRectF(x, y, w, h)]. *)
Record QRectF : Type := mkRect { rx : R; ry : R; rw : R; rh : R }.

(** [QRectF(topLeft, bottomRight)]. *)
Definition rect_of_corners (p1 p2 : QPointF) : QRectF :=
  mkRect (px p1) (py p1) (px p2 - px p1) (py p2 - py p1).

Definition center (r : QRectF) : QPointF :=
  mkPoint (rx r + rw r / 2) (ry r + rh r / 2).

(** The affine part of a [QTransform]; [translate] and [scale] keep the
    projective column at (0, 0, 1). *)
Record QTransform : Type :=
  mkTransform { m11 : R; m12 : R; m21 : R; m22 : R; m31 : R; m32 : R }.

Module QTransform.
Definition identity : QTransform := mkTransform 1 0 0 1 0 0.

(** [t.translate(dx, dy)]: moves the coordinate system. *)
Definition translate (dx dy : R) (t : QTransform) : QTransform :=
  mkTransform (m11 t) (m12 t) (m21 t) (m22 t)
    (m31 t + (dx * m11 t + dy * m21 t))
    (m32 t + (dy * m22 t + dx * m12 t)).

(** [t.scale(sx, sy)]: scales the coordinate system. *)
Definition scale (sx sy : R) (t : QTransform) : QTransform :=
  mkTransform (m11 t * sx) (m12 t * sx) (m21 t * sy) (m22 t * sy)
    (m31 t) (m32 t).

(** [t.map(QPointF(x, y))]. *)
Definition map (t : QTransform) (p : QPointF) : QPointF :=
  mkPoint (m11 t * px p + m21 t * py p + m31 t)
          (m22 t * py p + m12 t * px p + m32 t).

Definition determinant (t : QTransform) : R :=
  m11 t * m22 t - m12 t * m21 t.

(** [t.inverted()]: the pair of the inverse and [True], or of the
    identity and [False] when the matrix is singular. *)
Definition inverted (t : QTransform) : QTransform * bool :=
  let det := determinant t in
  if Req_dec_T det 0 then (identity, false)
  else
    (mkTransform (m22 t / det) (- m12 t / det)
                 (- m21 t / det) (m11 t / det)
                 ((m21 t * m32 t - m22 t * m31 t) / det)
                 ((m12 t * m31 t - m11 t * m32 t) / det),
     true).
End QTransform.

Inductive Color : Type :=
| black
| white
| red
| green
| blue
| QColor (r g b : Z).

Inductive PenStyle : Type := NoPen | SolidLine.
Inductive BrushStyle : Type := NoBrush | SolidPattern.

Record QPen : Type :=
  mkPen { pen_color : Color; pen_width : R; pen_style : PenStyle }.
Record QBrush : Type :=
  mkBrush { brush_color : Color; brush_style : BrushStyle }.

(** [QPen(color, width)], [QPen(color)], [QPen(Qt.NoPen)]. *)
Definition QPen_of (c : Color) (w : R) : QPen := mkPen c w SolidLine.
Definition QPen_color (c : Color) : QPen := mkPen c 1 SolidLine.
Definition QPen_NoPen : QPen := mkPen black 1 NoPen.

(** [QBrush(color)], [QBrush(Qt.NoBrush)]. *)
Definition QBrush_of (c : Color) : QBrush := mkBrush c SolidPattern.
Definition QBrush_NoBrush : QBrush := mkBrush black NoBrush.

Definition pen_setColor (c : Color) (p : QPen) : QPen :=
  mkPen c (pen_width p) (pen_style p).
Definition pen_setWidth (w : R) (p : QPen) : QPen :=
  mkPen (pen_color p) w (pen_style p).
Definition brush_setColor (c : Color) (b : QBrush) : QBrush :=
  mkBrush c (brush_style b).

(** A font, by its pixel size; -1 while the size is given in points. *)
Record QFont : Type := mkFont { pixelSize : R }.
Definition QFont_default : QFont := mkFont (-1).

(** What [painter.fontMetrics()] reports for the painter's font. *)
Record QFontMetrics : Type :=
  mkMetrics { horizontalAdvance : string -> Z; fm_height : Z }.

(** What a painter does to the surface it is opened on. *)
Inductive DrawCmd : Type :=
| drawLine (pen : QPen) (p1 p2 : QPointF)
| drawRect (pen : QPen) (brush : QBrush) (r : QRectF)
| drawEllipse (pen : QPen) (brush : QBrush) (r : QRectF)
| drawPolygon (pen : QPen) (brush : QBrush) (points : list QPointF)
| drawText (pen : QPen) (f : QFont) (p : QPointF) (s : string).

(** A painter: the pen, brush and font it currently holds (by value). *)
Record QPainter : Type :=
  mkPainter { p_pen : QPen; p_brush : QBrush; p_font : QFont }.

(** [QPainter(widget)]: a solid pen of width 1 in the widget's foreground
    colour, no brush, the widget's font. *)
Definition QPainter_on_widget : QPainter :=
  mkPainter (QPen_color black) QBrush_NoBrush QFont_default.

Definition setPen (pen : QPen) (p : QPainter) : QPainter :=
  mkPainter pen (p_brush p) (p_font p).
Definition setBrush (b : QBrush) (p : QPainter) : QPainter :=
  mkPainter (p_pen p) b (p_font p).
Definition setFont (f : QFont) (p : QPainter) : QPainter :=
  mkPainter (p_pen p) (p_brush p) f.

End Qt.

Import Qt.

(** ** The class [DrawView] *)

Module DrawView.

(** Which of the object's pens [current_pen] is bound to: the pens are
    shared objects, so a later [setColor] on [stroke_pen] shows through
    [current_pen]. *)
Inductive PenRef : Type := the_stroke_pen | the_no_stroke_pen.
Inductive BrushRef : Type := the_fill_brush | the_no_fill_brush.

(** The tuple [push_attributes] saves. *)
Definition Attributes : Type :=
  (Color * Color * R * Color * bool * bool)%type.

(** The instance attributes.  [width] and [height] are what the inherited
    [QWidget.width()] and [QWidget.height()] return; [transform] and
    [scale] exist once [__update_transform] got past its guard;
    [__font_color] exists once the [text_color] setter ran; [surface] is
    the sequence of draw commands issued on the widget. *)
Record DrawView : Type := {
  width : Z;
  height : Z;
  world_bounds : QRectF;
  transform : option QTransform;
  scale : option R;
  __stroke_color : Color;
  __fill_color : Color;
  __stroke_width : R;
  __text_color : Color;
  __font_color : option Color;
  __stroke : bool;
  __fill : bool;
  stroke_pen : QPen;
  fill_brush : QBrush;
  no_fill_brush : QBrush;
  no_stroke_pen : QPen;
  __current_pen : PenRef;
  __current_brush : BrushRef;
  __attribute_stack : list Attributes;
  font : QFont;
  text_pen : QPen;
  surface : list DrawCmd
}.

Definition with_width (v : Z) (self : DrawView) : DrawView :=
{| width := v; height := height self; world_bounds := world_bounds self;
   transform := transform self; scale := scale self;
   __stroke_color := __stroke_color self;
   __fill_color := __fill_color self;
   __stroke_width := __stroke_width self;
   __text_color := __text_color self; __font_color := __font_color self;
   __stroke := __stroke self; __fill := __fill self;
   stroke_pen := stroke_pen self; fill_brush := fill_brush self;
   no_fill_brush := no_fill_brush self;
   no_stroke_pen := no_stroke_pen self;
   __current_pen := __current_pen self;
   __current_brush := __current_brush self;
   __attribute_stack := __attribute_stack self; font := font self;
   text_pen := text_pen self; surface := surface self |}.

Definition with_height (v : Z) (self : DrawView) : DrawView :=
{| width := width self; height := v; world_bounds := world_bounds self;
   transform := transform self; scale := scale self;
   __stroke_color := __stroke_color self;
   __fill_color := __fill_color self;
   __stroke_width := __stroke_width self;
   __text_color := __text_color self; __font_color := __font_color self;
   __stroke := __stroke self; __fill := __fill self;
   stroke_pen := stroke_pen self; fill_brush := fill_brush self;
   no_fill_brush := no_fill_brush self;
   no_stroke_pen := no_stroke_pen self;
   __current_pen := __current_pen self;
   __current_brush := __current_brush self;
   __attribute_stack := __attribute_stack self; font := font self;
   text_pen := text_pen self; surface := surface self |}.

Definition with_world_bounds (v : QRectF) (self : DrawView) : DrawView :=
{| width := width self; height := height self; world_bounds := v;
   transform := transform self; scale := scale self;
   __stroke_color := __stroke_color self;
   __fill_color := __fill_color self;
   __stroke_width := __stroke_width self;
   __text_color := __text_color self; __font_color := __font_color self;
   __stroke := __stroke self; __fill := __fill self;
   stroke_pen := stroke_pen self; fill_brush := fill_brush self;
   no_fill_brush := no_fill_brush self;
   no_stroke_pen := no_stroke_pen self;
   __current_pen := __current_pen self;
   __current_brush := __current_brush self;
   __attribute_stack := __attribute_stack self; font := font self;
   text_pen := text_pen self; surface := surface self |}.

Definition with_transform (v : QTransform) (self : DrawView) : DrawView :=
{| width := width self; height := height self;
   world_bounds := world_bounds self; transform := Some v;
   scale := scale self; __stroke_color := __stroke_color self;
   __fill_color := __fill_color self;
   __stroke_width := __stroke_width self;
   __text_color := __text_color self; __font_color := __font_color self;
   __stroke := __stroke self; __fill := __fill self;
   stroke_pen := stroke_pen self; fill_brush := fill_brush self;
   no_fill_brush := no_fill_brush self;
   no_stroke_pen := no_stroke_pen self;
   __current_pen := __current_pen self;
   __current_brush := __current_brush self;
   __attribute_stack := __attribute_stack self; font := font self;
   text_pen := text_pen self; surface := surface self |}.

Definition with_scale (v : R) (self : DrawView) : DrawView :=
{| width := width self; height := height self;
   world_bounds := world_bounds self; transform := transform self;
   scale := Some v; __stroke_color := __stroke_color self;
   __fill_color := __fill_color self;
   __stroke_width := __stroke_width self;
   __text_color := __text_color self; __font_color := __font_color self;
   __stroke := __stroke self; __fill := __fill self;
   stroke_pen := stroke_pen self; fill_brush := fill_brush self;
   no_fill_brush := no_fill_brush self;
   no_stroke_pen := no_stroke_pen self;
   __current_pen := __current_pen self;
   __current_brush := __current_brush self;
   __attribute_stack := __attribute_stack self; font := font self;
   text_pen := text_pen self; surface := surface self |}.

Definition with_stroke_color (v : Color) (self : DrawView) : DrawView :=
{| width := width self; height := height self;
   world_bounds := world_bounds self; transform := transform self;
   scale := scale self; __stroke_color := v;
   __fill_color := __fill_color self;
   __stroke_width := __stroke_width self;
   __text_color := __text_color self; __font_color := __font_color self;
   __stroke := __stroke self; __fill := __fill self;
   stroke_pen := stroke_pen self; fill_brush := fill_brush self;
   no_fill_brush := no_fill_brush self;
   no_stroke_pen := no_stroke_pen self;
   __current_pen := __current_pen self;
   __current_brush := __current_brush self;
   __attribute_stack := __attribute_stack self; font := font self;
   text_pen := text_pen self; surface := surface self |}.

Definition with_fill_color (v : Color) (self : DrawView) : DrawView :=
{| width := width self; height := height self;
   world_bounds := world_bounds self; transform := transform self;
   scale := scale self; __stroke_color := __stroke_color self;
   __fill_color := v; __stroke_width := __stroke_width self;
   __text_color := __text_color self; __font_color := __font_color self;
   __stroke := __stroke self; __fill := __fill self;
   stroke_pen := stroke_pen self; fill_brush := fill_brush self;
   no_fill_brush := no_fill_brush self;
   no_stroke_pen := no_stroke_pen self;
   __current_pen := __current_pen self;
   __current_brush := __current_brush self;
   __attribute_stack := __attribute_stack self; font := font self;
   text_pen := text_pen self; surface := surface self |}.

Definition with_stroke_width (v : R) (self : DrawView) : DrawView :=
{| width := width self; height := height self;
   world_bounds := world_bounds self; transform := transform self;
   scale := scale self; __stroke_color := __stroke_color self;
   __fill_color := __fill_color self; __stroke_width := v;
   __text_color := __text_color self; __font_color := __font_color self;
   __stroke := __stroke self; __fill := __fill self;
   stroke_pen := stroke_pen self; fill_brush := fill_brush self;
   no_fill_brush := no_fill_brush self;
   no_stroke_pen := no_stroke_pen self;
   __current_pen := __current_pen self;
   __current_brush := __current_brush self;
   __attribute_stack := __attribute_stack self; font := font self;
   text_pen := text_pen self; surface := surface self |}.

Definition with_font_color (v : Color) (self : DrawView) : DrawView :=
{| width := width self; height := height self;
   world_bounds := world_bounds self; transform := transform self;
   scale := scale self; __stroke_color := __stroke_color self;
   __fill_color := __fill_color self;
   __stroke_width := __stroke_width self;
   __text_color := __text_color self; __font_color := Some v;
   __stroke := __stroke self; __fill := __fill self;
   stroke_pen := stroke_pen self; fill_brush := fill_brush self;
   no_fill_brush := no_fill_brush self;
   no_stroke_pen := no_stroke_pen self;
   __current_pen := __current_pen self;
   __current_brush := __current_brush self;
   __attribute_stack := __attribute_stack self; font := font self;
   text_pen := text_pen self; surface := surface self |}.

Definition with_stroke (v : bool) (self : DrawView) : DrawView :=
{| width := width self; height := height self;
   world_bounds := world_bounds self; transform := transform self;
   scale := scale self; __stroke_color := __stroke_color self;
   __fill_color := __fill_color self;
   __stroke_width := __stroke_width self;
   __text_color := __text_color self; __font_color := __font_color self;
   __stroke := v; __fill := __fill self; stroke_pen := stroke_pen self;
   fill_brush := fill_brush self; no_fill_brush := no_fill_brush self;
   no_stroke_pen := no_stroke_pen self;
   __current_pen := __current_pen self;
   __current_brush := __current_brush self;
   __attribute_stack := __attribute_stack self; font := font self;
   text_pen := text_pen self; surface := surface self |}.

Definition with_fill (v : bool) (self : DrawView) : DrawView :=
{| width := width self; height := height self;
   world_bounds := world_bounds self; transform := transform self;
   scale := scale self; __stroke_color := __stroke_color self;
   __fill_color := __fill_color self;
   __stroke_width := __stroke_width self;
   __text_color := __text_color self; __font_color := __font_color self;
   __stroke := __stroke self; __fill := v; stroke_pen := stroke_pen self;
   fill_brush := fill_brush self; no_fill_brush := no_fill_brush self;
   no_stroke_pen := no_stroke_pen self;
   __current_pen := __current_pen self;
   __current_brush := __current_brush self;
   __attribute_stack := __attribute_stack self; font := font self;
   text_pen := text_pen self; surface := surface self |}.

Definition with_stroke_pen (v : QPen) (self : DrawView) : DrawView :=
{| width := width self; height := height self;
   world_bounds := world_bounds self; transform := transform self;
   scale := scale self; __stroke_color := __stroke_color self;
   __fill_color := __fill_color self;
   __stroke_width := __stroke_width self;
   __text_color := __text_color self; __font_color := __font_color self;
   __stroke := __stroke self; __fill := __fill self; stroke_pen := v;
   fill_brush := fill_brush self; no_fill_brush := no_fill_brush self;
   no_stroke_pen := no_stroke_pen self;
   __current_pen := __current_pen self;
   __current_brush := __current_brush self;
   __attribute_stack := __attribute_stack self; font := font self;
   text_pen := text_pen self; surface := surface self |}.

Definition with_fill_brush (v : QBrush) (self : DrawView) : DrawView :=
{| width := width self; height := height self;
   world_bounds := world_bounds self; transform := transform self;
   scale := scale self; __stroke_color := __stroke_color self;
   __fill_color := __fill_color self;
   __stroke_width := __stroke_width self;
   __text_color := __text_color self; __font_color := __font_color self;
   __stroke := __stroke self; __fill := __fill self;
   stroke_pen := stroke_pen self; fill_brush := v;
   no_fill_brush := no_fill_brush self;
   no_stroke_pen := no_stroke_pen self;
   __current_pen := __current_pen self;
   __current_brush := __current_brush self;
   __attribute_stack := __attribute_stack self; font := font self;
   text_pen := text_pen self; surface := surface self |}.

Definition with_text_pen (v : QPen) (self : DrawView) : DrawView :=
{| width := width self; height := height self;
   world_bounds := world_bounds self; transform := transform self;
   scale := scale self; __stroke_color := __stroke_color self;
   __fill_color := __fill_color self;
   __stroke_width := __stroke_width self;
   __text_color := __text_color self; __font_color := __font_color self;
   __stroke := __stroke self; __fill := __fill self;
   stroke_pen := stroke_pen self; fill_brush := fill_brush self;
   no_fill_brush := no_fill_brush self;
   no_stroke_pen := no_stroke_pen self;
   __current_pen := __current_pen self;
   __current_brush := __current_brush self;
   __attribute_stack := __attribute_stack self; font := font self;
   text_pen := v; surface := surface self |}.

Definition with_current_pen (v : PenRef) (self : DrawView) : DrawView :=
{| width := width self; height := height self;
   world_bounds := world_bounds self; transform := transform self;
   scale := scale self; __stroke_color := __stroke_color self;
   __fill_color := __fill_color self;
   __stroke_width := __stroke_width self;
   __text_color := __text_color self; __font_color := __font_color self;
   __stroke := __stroke self; __fill := __fill self;
   stroke_pen := stroke_pen self; fill_brush := fill_brush self;
   no_fill_brush := no_fill_brush self;
   no_stroke_pen := no_stroke_pen self; __current_pen := v;
   __current_brush := __current_brush self;
   __attribute_stack := __attribute_stack self; font := font self;
   text_pen := text_pen self; surface := surface self |}.

Definition with_current_brush (v : BrushRef) (self : DrawView) : DrawView :=
{| width := width self; height := height self;
   world_bounds := world_bounds self; transform := transform self;
   scale := scale self; __stroke_color := __stroke_color self;
   __fill_color := __fill_color self;
   __stroke_width := __stroke_width self;
   __text_color := __text_color self; __font_color := __font_color self;
   __stroke := __stroke self; __fill := __fill self;
   stroke_pen := stroke_pen self; fill_brush := fill_brush self;
   no_fill_brush := no_fill_brush self;
   no_stroke_pen := no_stroke_pen self;
   __current_pen := __current_pen self; __current_brush := v;
   __attribute_stack := __attribute_stack self; font := font self;
   text_pen := text_pen self; surface := surface self |}.

Definition with_attribute_stack (v : list Attributes) (self : DrawView)
  : DrawView :=
{| width := width self; height := height self;
   world_bounds := world_bounds self; transform := transform self;
   scale := scale self; __stroke_color := __stroke_color self;
   __fill_color := __fill_color self;
   __stroke_width := __stroke_width self;
   __text_color := __text_color self; __font_color := __font_color self;
   __stroke := __stroke self; __fill := __fill self;
   stroke_pen := stroke_pen self; fill_brush := fill_brush self;
   no_fill_brush := no_fill_brush self;
   no_stroke_pen := no_stroke_pen self;
   __current_pen := __current_pen self;
   __current_brush := __current_brush self; __attribute_stack := v;
   font := font self; text_pen := text_pen self; surface := surface self |}.

Definition with_surface (v : list DrawCmd) (self : DrawView) : DrawView :=
{| width := width self; height := height self;
   world_bounds := world_bounds self; transform := transform self;
   scale := scale self; __stroke_color := __stroke_color self;
   __fill_color := __fill_color self;
   __stroke_width := __stroke_width self;
   __text_color := __text_color self; __font_color := __font_color self;
   __stroke := __stroke self; __fill := __fill self;
   stroke_pen := stroke_pen self; fill_brush := fill_brush self;
   no_fill_brush := no_fill_brush self;
   no_stroke_pen := no_stroke_pen self;
   __current_pen := __current_pen self;
   __current_brush := __current_brush self;
   __attribute_stack := __attribute_stack self; font := font self;
   text_pen := text_pen self; surface := v |}.

Definition M : Type -> Type := Py.M DrawView.

Definition pen_at (r : PenRef) (self : DrawView) : QPen :=
  match r with
  | the_stroke_pen => stroke_pen self
  | the_no_stroke_pen => no_stroke_pen self
  end.

Definition brush_at (r : BrushRef) (self : DrawView) : QBrush :=
  match r with
  | the_fill_brush => fill_brush self
  | the_no_fill_brush => no_fill_brush self
  end.

(** [__update_transform] *)
Definition __update_transform : M unit :=
  w <- Py.attr width ;;
  h <- Py.attr height ;;
  if (w =? 0)%Z || (h =? 0)%Z then Py.ret tt
  else
    let viewport := mkRect 0 0 (IZR w) (IZR h) in
    Py.setattr (with_transform QTransform.identity) ;;
    wb <- Py.attr world_bounds ;;
    scale_x <- Py.truediv (rw viewport) (rw wb) ;;
    scale_y <- Py.truediv (rh viewport) (rh wb) ;;
    Py.setattr (with_scale (Py.min scale_x scale_y)) ;;
    let tx := rw viewport / 2 in
    let ty := rh viewport / 2 in
    t <- Py.getattr transform ;;
    Py.setattr (with_transform (QTransform.translate tx ty t)) ;;
    t <- Py.getattr transform ;;
    s <- Py.getattr scale ;;
    Py.setattr (with_transform (QTransform.scale s (- s) t)) ;;
    t <- Py.getattr transform ;;
    wb <- Py.attr world_bounds ;;
    Py.setattr
      (with_transform
         (QTransform.translate (- px (center wb)) (- py (center wb)) t)).

(** [resizeEvent]: the host has changed the widget's size. *)
Definition resizeEvent (w h : Z) : M unit :=
  Py.setattr (with_width w) ;;
  Py.setattr (with_height h) ;;
  __update_transform.

(** [set_world_bounds] *)
Definition set_world_bounds (xmin ymin w h : R) : M unit :=
  Py.setattr (with_world_bounds (mkRect xmin ymin w h)) ;;
  __update_transform.

(** [window_to_world] *)
Definition window_to_world (x y : R) : M QPointF :=
  t <- Py.getattr transform ;;
  Py.ret (QTransform.map (fst (QTransform.inverted t)) (mkPoint x y)).

(** [world_to_window] *)
Definition world_to_window (x y : R) : M QPointF :=
  t <- Py.getattr transform ;;
  Py.ret (QTransform.map t (mkPoint x y)).


(** *** Properties *)

(** [stroke_color] and its setter *)
Definition stroke_color : M Color := Py.attr __stroke_color.

Definition set_stroke_color (color : Color) : M unit :=
  Py.setattr (with_stroke_color color) ;;
  Py.setattr (fun self =>
    with_stroke_pen (pen_setColor color (stroke_pen self)) self).

(** [fill_color] and its setter *)
Definition fill_color : M Color := Py.attr __fill_color.

Definition set_fill_color (color : Color) : M unit :=
  Py.setattr (with_fill_color color) ;;
  Py.setattr (fun self =>
    with_fill_brush (brush_setColor color (fill_brush self)) self).

(** [current_pen], [current_brush] and their setters *)
Definition current_pen : M PenRef := Py.attr __current_pen.
Definition set_current_pen (pen : PenRef) : M unit :=
  Py.setattr (with_current_pen pen).

Definition current_brush : M BrushRef := Py.attr __current_brush.
Definition set_current_brush (brush : BrushRef) : M unit :=
  Py.setattr (with_current_brush brush).

(** [fill] and its setter *)
Definition fill : M bool := Py.attr __fill.

Definition set_fill (fill : bool) : M unit :=
  (if fill then set_current_brush the_fill_brush
   else set_current_brush the_no_fill_brush) ;;
  Py.setattr (with_fill fill).

(** [stroke] and its setter *)
Definition stroke : M bool := Py.attr __stroke.

Definition set_stroke (stroke : bool) : M unit :=
  (if stroke then set_current_pen the_stroke_pen
   else set_current_pen the_no_stroke_pen) ;;
  Py.setattr (with_stroke stroke).

(** [stroke_width] and its setter *)
Definition stroke_width : M R := Py.attr __stroke_width.

Definition set_stroke_width (width : R) : M unit :=
  Py.setattr (with_stroke_width width) ;;
  Py.setattr (fun self =>
    with_stroke_pen (pen_setWidth width (stroke_pen self)) self).

(** [text_color] and its setter: both go through [__font_color]. *)
Definition text_color : M Color := Py.getattr __font_color.

Definition set_text_color (color : Color) : M unit :=
  Py.setattr (with_font_color color) ;;
  Py.setattr (fun self =>
    with_text_pen (pen_setColor color (text_pen self)) self).

(** *** The attribute stack *)

(** [push_attributes] *)
Definition push_attributes : M unit :=
  stack <- Py.attr __attribute_stack ;;
  sc <- stroke_color ;;
  fc <- fill_color ;;
  sw <- stroke_width ;;
  tc <- text_color ;;
  s <- stroke ;;
  f <- fill ;;
  Py.setattr (with_attribute_stack (Py.append stack (sc, fc, sw, tc, s, f))).

(** [pop_attributes] *)
Definition pop_attributes : M unit :=
  stack <- Py.attr __attribute_stack ;;
  match Py.pop stack with
  | None => Py.ret tt
  | Some ((sc, fc, sw, tc, s, f), rest) =>
      Py.setattr (with_attribute_stack rest) ;;
      set_stroke_color sc ;;
      set_fill_color fc ;;
      set_stroke_width sw ;;
      set_text_color tc ;;
      set_stroke s ;;
      set_fill f ;;
      c <- stroke_color ;;
      Py.setattr (fun self =>
        with_stroke_pen (pen_setColor c (stroke_pen self)) self) ;;
      c <- fill_color ;;
      Py.setattr (fun self =>
        with_fill_brush (brush_setColor c (fill_brush self)) self) ;;
      w <- stroke_width ;;
      Py.setattr (fun self =>
        with_stroke_pen (pen_setWidth w (stroke_pen self)) self) ;;
      c <- text_color ;;
      Py.setattr (fun self =>
        with_text_pen (pen_setColor c (text_pen self)) self) ;;
      s <- stroke ;;
      set_current_pen (if s then the_stroke_pen else the_no_stroke_pen) ;;
      f <- fill ;;
      set_current_brush (if f then the_fill_brush else the_no_fill_brush)
  end.

(** *** Painting *)

(** A draw call on a painter opened on the widget. *)
Definition paint (c : DrawCmd) : M unit :=
  Py.setattr (fun self => with_surface (surface self ++ [c]) self).

(** [painter] *)
Definition painter : M QPainter :=
  let painter := QPainter_on_widget in
  r <- current_pen ;;
  pen <- Py.attr (pen_at r) ;;
  let painter := setPen pen painter in
  r <- current_brush ;;
  brush <- Py.attr (brush_at r) ;;
  let painter := setBrush brush painter in
  Py.ret painter.

(** [self.transform.map(QPointF(x, y))] *)
Definition transform_map (x y : R) : M QPointF :=
  t <- Py.getattr transform ;;
  Py.ret (QTransform.map t (mkPoint x y)).

(** [polygon] *)
Definition polygon (points : list (R * R)) : M unit :=
  painter <- painter ;;
  mapped_points <-
    Py.comprehension (fun xy => transform_map (fst xy) (snd xy)) points ;;
  paint (drawPolygon (p_pen painter) (p_brush painter) mapped_points).

(** [line] *)
Definition line (x1 y1 x2 y2 : R) : M unit :=
  painter <- painter ;;
  p1 <- transform_map x1 y1 ;;
  p2 <- transform_map x2 y2 ;;
  paint (drawLine (p_pen painter) p1 p2).

(** [arrow] *)
Definition arrow (x1 y1 x2 y2 arrow_size : R) (arrow_start arrow_end : bool)
  : M unit :=
  let painter := QPainter_on_widget in
  p1 <- transform_map x1 y1 ;;
  p2 <- transform_map x2 y2 ;;
  paint (drawLine (p_pen painter) p1 p2) ;;
  let dx := px p2 - px p1 in
  let dy := py p2 - py p1 in
  let length := Py.pow_half (dx ^ 2 + dy ^ 2) in
  if Req_dec_T length 0 then Py.ret tt
  else
    dx <- Py.truediv dx length ;;
    dy <- Py.truediv dy length ;;
    s <- Py.getattr scale ;;
    let s_arrow_size := arrow_size * Py.abs s in
    (if arrow_end then
       let p3 := mkPoint (px p2 - dx * s_arrow_size + dy * s_arrow_size / 2)
                         (py p2 - dy * s_arrow_size - dx * s_arrow_size / 2) in
       let p4 := mkPoint (px p2 - dx * s_arrow_size - dy * s_arrow_size / 2)
                         (py p2 - dy * s_arrow_size + dx * s_arrow_size / 2) in
       paint (drawLine (p_pen painter) p2 p3) ;;
       paint (drawLine (p_pen painter) p2 p4)
     else Py.ret tt) ;;
    (if arrow_start then
       let p5 := mkPoint (px p1 + dx * s_arrow_size + dy * s_arrow_size / 2)
                         (py p1 + dy * s_arrow_size - dx * s_arrow_size / 2) in
       let p6 := mkPoint (px p1 + dx * s_arrow_size - dy * s_arrow_size / 2)
                         (py p1 + dy * s_arrow_size + dx * s_arrow_size / 2) in
       paint (drawLine (p_pen painter) p1 p5) ;;
       paint (drawLine (p_pen painter) p1 p6)
     else Py.ret tt).

(** [rect] *)
Definition rect (x y w h : R) : M unit :=
  painter <- painter ;;
  p1 <- transform_map x y ;;
  p2 <- transform_map (x + w) (y + h) ;;
  paint (drawRect (p_pen painter) (p_brush painter) (rect_of_corners p1 p2)).

(** [circle] *)
Definition circle (x y r : R) : M unit :=
  painter <- painter ;;
  p <- transform_map x y ;;
  s <- Py.getattr scale ;;
  let screen_r := r * Py.abs s in
  paint (drawEllipse (p_pen painter) (p_brush painter)
           (mkRect (px p - screen_r) (py p - screen_r)
                   (2 * screen_r) (2 * screen_r))).

(** [triangle] *)
Definition triangle (x y w h : R) : M unit :=
  painter <- painter ;;
  p1 <- transform_map x y ;;
  p2 <- transform_map (x + w / 2) (y - h) ;;
  p3 <- transform_map (x - w / 2) (y - h) ;;
  paint (drawPolygon (p_pen painter) (p_brush painter) [p1; p2; p3]).

Section Text.
(** The host's font engine: the metrics of a string in a given font. *)
Variable fontMetrics : QFont -> QFontMetrics.

(** [text] *)
Definition text (x y : R) (text : string) (font_size : R)
    (hor_align vert_align : string) : M unit :=
  let painter := QPainter_on_widget in
  let font := p_font painter in
  s <- Py.getattr scale ;;
  let font := mkFont (font_size * Py.abs s) in
  let painter := setFont font painter in
  let metrics := fontMetrics (p_font painter) in
  let text_width := IZR (horizontalAdvance metrics text) in
  let text_height := IZR (fm_height metrics) in
  p <- transform_map x y ;;
  let p :=
    if String.eqb hor_align "right" then mkPoint (px p - text_width) (py p)
    else if String.eqb hor_align "center"
         then mkPoint (px p - text_width / 2) (py p)
         else p in
  let p :=
    if String.eqb vert_align "top" then mkPoint (px p) (py p + text_height)
    else if String.eqb vert_align "middle"
         then mkPoint (px p) (py p + text_height / 2)
         else p in
  pen <- Py.attr text_pen ;;
  let painter := setPen pen painter in
  paint (drawText (p_pen painter) (p_font painter) p text) ;;
  pen <- Py.attr stroke_pen ;;
  let painter := setPen pen painter in
  Py.ret tt.
End Text.

(** *** Construction *)

(** The attributes [__init__] assigns, before its call of
    [__update_transform] has had its effect. *)
Definition fresh (w h : Z) : DrawView :=
  {| width := w; height := h;
     world_bounds := mkRect (-10) (-10) 20 20;
     transform := None; scale := None;
     __stroke_color := black; __fill_color := white;
     __stroke_width := 1; __text_color := black; __font_color := None;
     __stroke := true; __fill := true;
     stroke_pen := QPen_of black 1; fill_brush := QBrush_of white;
     no_fill_brush := QBrush_NoBrush; no_stroke_pen := QPen_NoPen;
     __current_pen := the_stroke_pen; __current_brush := the_fill_brush;
     __attribute_stack := []; font := QFont_default;
     text_pen := QPen_color black; surface := [] |}.

(** [DrawView()] on a widget the host gives the size [w] by [h]. *)
Definition __init__ (w h : Z) : DrawView :=
  snd (__update_transform (fresh w h)).

End DrawView.

Import DrawView.

(** ** [DrawView]: the mouse handlers *)

Module Pointer.

(** The view with the attribute the mouse handlers add:
    [current_mouse_pos] exists once a handler has assigned it. *)
Record Tracked : Type := {
  view : DrawView;
  current_mouse_pos : option QPointF
}.

Definition with_view (v : DrawView) (self : Tracked) : Tracked :=
  {| view := v; current_mouse_pos := current_mouse_pos self |}.

Definition with_current_mouse_pos (p : QPointF) (self : Tracked) : Tracked :=
  {| view := view self; current_mouse_pos := Some p |}.

Definition M : Type -> Type := Py.M Tracked.

(** A method of the view, run on the view inside. *)
Definition on_view {A} (m : DrawView.M A) : M A :=
  fun self =>
    match m (view self) with
    | (r, v) => (r, with_view v self)
    end.

Section Hooks.
(** [on_mouse_move], [on_mouse_press], [on_mouse_release] as the subclass
    overrides them. *)
Variable on_mouse_move : R -> R -> M unit.
Variable on_mouse_press : R -> R -> M unit.
Variable on_mouse_release : R -> R -> M unit.

(** [mouseMoveEvent], for an event at the pixel [(ex, ey)] *)
Definition mouseMoveEvent (ex ey : Z) : M unit :=
  p <- on_view (window_to_world (IZR ex) (IZR ey)) ;;
  Py.setattr (with_current_mouse_pos p) ;;
  px_ <- Py.getattr current_mouse_pos ;;
  py_ <- Py.getattr current_mouse_pos ;;
  on_mouse_move (px px_) (py py_).

(** [mousePressEvent] *)
Definition mousePressEvent (ex ey : Z) : M unit :=
  p <- on_view (window_to_world (IZR ex) (IZR ey)) ;;
  Py.setattr (with_current_mouse_pos p) ;;
  px_ <- Py.getattr current_mouse_pos ;;
  py_ <- Py.getattr current_mouse_pos ;;
  on_mouse_press (px px_) (py py_).

(** [mouseReleaseEvent] *)
Definition mouseReleaseEvent (ex ey : Z) : M unit :=
  p <- on_view (window_to_world (IZR ex) (IZR ey)) ;;
  Py.setattr (with_current_mouse_pos p) ;;
  px_ <- Py.getattr current_mouse_pos ;;
  py_ <- Py.getattr current_mouse_pos ;;
  on_mouse_release (px px_) (py py_).
End Hooks.

(** The hooks of [DrawView] itself: [pass]. *)
Definition on_mouse_pass (x y : R) : M unit := Py.ret tt.

End Pointer.

(** ** [BeamWindow]: the file actions *)

Module BeamWindow.

(** What a file action asks of the dialogs, the beam model, the beam view
    and the window's controls, in the order asked.  The model and the view
    are not modelled further; a call on them is taken to return. *)
Inductive Request : Type :=
| getOpenFileName
| getSaveFileName
| beam_model_new
| beam_model_open_from_json (filename : string)
| beam_model_solve
| beam_model_save_as_json (filename : string)
| beam_view_on_model_updated
| update_controls.

Record BeamWindow : Type := {
  filename : string;
  requests : list Request
}.

Definition with_filename (f : string) (self : BeamWindow) : BeamWindow :=
  {| filename := f; requests := requests self |}.

Definition request (r : Request) (self : BeamWindow) : BeamWindow :=
  {| filename := filename self; requests := requests self ++ [r] |}.

(** [on_open]; [chosen] is the name the open dialog returns (empty when the
    dialog is cancelled). *)
Definition on_open (chosen : string) (self : BeamWindow) : BeamWindow :=
  let self := request getOpenFileName self in
  let self := with_filename chosen self in
  if negb (String.eqb (filename self) "") then
    let self := request beam_model_new self in
    let self := request (beam_model_open_from_json (filename self)) self in
    let self := request beam_model_solve self in
    let self := request beam_view_on_model_updated self in
    request update_controls self
  else self.

(** [on_save]; [chosen] is the name the save dialog returns if it is
    shown. *)
Definition on_save (chosen : string) (self : BeamWindow) : BeamWindow :=
  let self :=
    if String.eqb (filename self) "" then
      let self := request getSaveFileName self in
      with_filename chosen self
    else self in
  if negb (String.eqb (filename self) "") then
    request (beam_model_save_as_json (filename self)) self
  else self.

(** [on_save_as] *)
Definition on_save_as (chosen : string) (self : BeamWindow) : BeamWindow :=
  let self := request getSaveFileName self in
  let temp_filename := chosen in
  if negb (String.eqb temp_filename "") then
    let self := with_filename temp_filename self in
    request (beam_model_save_as_json (filename self)) self
  else self.

(** A file action of the menu, with the answer of its dialog. *)
Inductive Action : Type :=
| Open (chosen : string)
| Save (chosen : string)
| SaveAs (chosen : string).

Definition act (a : Action) : BeamWindow -> BeamWindow :=
  match a with
  | Open chosen => on_open chosen
  | Save chosen => on_save chosen
  | SaveAs chosen => on_save_as chosen
  end.

Definition acts (l : list Action) (self : BeamWindow) : BeamWindow :=
  fold_left (fun s a => act a s) l self.

End BeamWindow.

(** * Vocabulary of the statements *)

(** translate to the viewport centre, scale by [(s, -s)], translate by minus
    the world centre *)
Definition fit_transform (vw vh s : R) (wb : QRectF) : QTransform :=
  QTransform.translate (- px (center wb)) (- py (center wb))
    (QTransform.scale s (- s)
       (QTransform.translate (vw / 2) (vh / 2) QTransform.identity)).

Definition fit_scale (vw vh : R) (wb : QRectF) : R :=
  Py.min (vw / rw wb) (vh / rh wb).

(** The square [circle] hands to [drawEllipse]: centre [c], half-side
    [radius]. *)
Definition circle_rect (c : QPointF) (radius : R) : QRectF :=
  mkRect (px c - radius) (py c - radius) (2 * radius) (2 * radius).

(** The object after one more draw command. *)
Definition painted (cmds : list DrawCmd) (self : DrawView) : DrawView :=
  with_surface (surface self ++ cmds) self.

(** The pen and brush [painter()] loads: those [current_pen] and
    [current_brush] are bound to. *)
Definition effective_pen (self : DrawView) : QPen :=
  pen_at (__current_pen self) self.
Definition effective_brush (self : DrawView) : QBrush :=
  brush_at (__current_brush self) self.

(** A view constructed at 400 by 400 and given world bounds 20 by 10. *)
Definition view_20_by_10 : DrawView :=
  with_world_bounds (mkRect (-10) (-5) 20 10) (fresh 400 400).

(** A view whose world bounds have zero width, so that any quotient by it
    would raise, on a widget of height zero. *)
Definition view_flat : DrawView :=
  with_world_bounds (mkRect 0 0 0 0) (fresh 640 0).

(** The six style attributes [push_attributes] saves, as the properties
    read them ([text_color] reads [__font_color]). *)
Definition style_state (self : DrawView)
  : Color * Color * R * option Color * bool * bool :=
  (__stroke_color self, __fill_color self, __stroke_width self,
   __font_color self, __stroke self, __fill self).

(** The object a statement leaves behind, whether it returned or raised. *)
Definition after {A} (m : M A) (self : DrawView) : DrawView := snd (m self).

(** The outcome of a statement. *)
Definition outcome {A} (m : M A) (self : DrawView) : Py.result A :=
  fst (m self).

(** The object with its surface wiped: what is left to compare when only
    draw commands were issued. *)
Definition unpainted (self : DrawView) : DrawView := with_surface [] self.

(** The calls a client makes on a view: the host's resize, the world
    bounds, the six style setters, the attribute stack and the primitives. *)
Inductive Call : Type :=
| Resize (w h : Z)
| SetWorldBounds (xmin ymin w h : R)
| SetStrokeColor (c : Color)
| SetFillColor (c : Color)
| SetStrokeWidth (w : R)
| SetTextColor (c : Color)
| SetStroke (b : bool)
| SetFill (b : bool)
| PushAttributes
| PopAttributes
| Polygon (points : list (R * R))
| Line (x1 y1 x2 y2 : R)
| Arrow (x1 y1 x2 y2 arrow_size : R) (arrow_start arrow_end : bool)
| Rect (x y w h : R)
| Circle (x y r : R)
| Triangle (x y w h : R)
| Text (x y : R) (s : string) (font_size : R) (hor_align vert_align : string).

Section Calls.
Variable fontMetrics : QFont -> QFontMetrics.

Definition perform (c : Call) : M unit :=
  match c with
  | Resize w h => resizeEvent w h
  | SetWorldBounds xmin ymin w h => set_world_bounds xmin ymin w h
  | SetStrokeColor c => set_stroke_color c
  | SetFillColor c => set_fill_color c
  | SetStrokeWidth w => set_stroke_width w
  | SetTextColor c => set_text_color c
  | SetStroke b => set_stroke b
  | SetFill b => set_fill b
  | PushAttributes => push_attributes
  | PopAttributes => pop_attributes
  | Polygon points => polygon points
  | Line x1 y1 x2 y2 => line x1 y1 x2 y2
  | Arrow x1 y1 x2 y2 n s e => arrow x1 y1 x2 y2 n s e
  | Rect x y w h => rect x y w h
  | Circle x y r => circle x y r
  | Triangle x y w h => triangle x y w h
  | Text x y s n ha va => text fontMetrics x y s n ha va
  end.

(** The object after a sequence of calls, each run to its return or to its
    exception. *)
Definition after_calls (cs : list Call) (self : DrawView) : DrawView :=
  fold_left (fun s c => after (perform c) s) cs self.
End Calls.

Definition is_SetTextColor (c : Call) : bool :=
  match c with SetTextColor _ => true | _ => false end.

Definition is_primitive (c : Call) : bool :=
  match c with
  | Polygon _ | Line _ _ _ _ | Arrow _ _ _ _ _ _ _ | Rect _ _ _ _
  | Circle _ _ _ | Triangle _ _ _ _ | Text _ _ _ _ _ _ => true
  | _ => false
  end.

(** The pens and brushes agree with the style attributes: [current_pen] is
    bound to [stroke_pen] exactly when [stroke] is on, [current_brush] to
    [fill_brush] exactly when [fill] is on, [stroke_pen] carries the stroke
    colour and width, [fill_brush] the fill colour. *)
Definition tools_consistent (self : DrawView) : Prop :=
  __current_pen self =
    (if __stroke self then the_stroke_pen else the_no_stroke_pen) /\
  __current_brush self =
    (if __fill self then the_fill_brush else the_no_fill_brush) /\
  stroke_pen self =
    mkPen (__stroke_color self) (__stroke_width self) SolidLine /\
  fill_brush self = mkBrush (__fill_color self) SolidPattern /\
  pen_style (no_stroke_pen self) = NoPen /\
  brush_style (no_fill_brush self) = NoBrush.

(** The [text_color] setter has not run: [__font_color] does not exist and
    nothing has been saved (a save needs [text_color] to read). *)
Definition text_color_unset (self : DrawView) : Prop :=
  __font_color self = None /\ __attribute_stack self = [].

(** Calls on a fresh view that leave its text colour alone. *)
Definition calls_without_text_color : list Call :=
  [SetStrokeColor red; PopAttributes; Line 0 0 1 1; SetFill false;
   Resize 800 600].

(** The pen a draw command is stroked with. *)
Definition cmd_pen (c : DrawCmd) : QPen :=
  match c with
  | drawLine pen _ _ => pen
  | drawRect pen _ _ => pen
  | drawEllipse pen _ _ => pen
  | drawPolygon pen _ _ => pen
  | drawText pen _ _ _ => pen
  end.

(** The far point of an arrowhead stroke: from [tip], [s] along the unit
    vector [(vx, vy)] that points from the tip to the other end of the
    shaft, and [side] along its perpendicular [(vy, -vx)]. *)
Definition head_point (tip : QPointF) (vx vy s side : R) : QPointF :=
  mkPoint (px tip + s * vx + side * vy) (py tip + s * vy - side * vx).

(** The two strokes of an arrowhead at [tip], the first drawn to the
    [side] given, the second to the opposite side. *)
Definition head_strokes (pen : QPen) (tip : QPointF) (vx vy s side : R)
  : list DrawCmd :=
  [drawLine pen tip (head_point tip vx vy s side);
   drawLine pen tip (head_point tip vx vy s (- side))].

(** Euclidean length of the vector from [p1] to [p2]. *)
Definition distance (p1 p2 : QPointF) : R :=
  sqrt ((px p2 - px p1) ^ 2 + (py p2 - py p1) ^ 2).

(** The world-space vertices [triangle] maps, in the order it maps them.
    The first is the apex; the other two are the ends of the base. *)
Definition triangle_vertices (x y w h : R) : list QPointF :=
  [mkPoint x y; mkPoint (x + w / 2) (y - h); mkPoint (x - w / 2) (y - h)].

(** The triangle in the words of the specification: base centred at
    [(x, y)] with half-width [w / 2], apex at [(x, y - h)]. *)
Definition triangle_as_stated (x y w h : R) : list QPointF :=
  [mkPoint (x - w / 2) y; mkPoint (x + w / 2) y; mkPoint x (y - h)].

(** The shift of the text anchor, in device units, for the measured width
    and height of the string. *)
Definition h_shift (hor_align : string) (text_width : R) : R :=
  if String.eqb hor_align "right" then - text_width
  else if String.eqb hor_align "center" then - (text_width / 2)
       else 0.

Definition v_shift (vert_align : string) (text_height : R) : R :=
  if String.eqb vert_align "top" then text_height
  else if String.eqb vert_align "middle" then text_height / 2
       else 0.

(** A font engine that measures every string 40 wide and 12 high. *)
Definition metrics_40_by_12 : QFont -> QFontMetrics :=
  fun _ => mkMetrics (fun _ => 40%Z) 12.

(** ** Further vocabulary *)

(** A view as the constructor and a sequence of calls leave it. *)
Definition reached (fm : QFont -> QFontMetrics) (w h : Z) (cs : list Call)
  : DrawView :=
  after_calls fm cs (__init__ w h).

(** The transform, where it exists, has an inverse. *)
Definition transform_invertible (self : DrawView) : Prop :=
  forall t : QTransform,
    transform self = Some t -> QTransform.determinant t <> 0.

(** The text pen is solid, of width 1, in the colour last given to
    [text_color], or in black while none was given. *)
Definition text_pen_current (self : DrawView) : Prop :=
  text_pen self =
    mkPen (match __font_color self with Some c => c | None => black end)
      1 SolidLine.

(** How deep the saves are nested after the calls [cs], starting [d] deep;
    [None] if a restore comes with nothing saved since the start. *)
Fixpoint nesting (d : nat) (cs : list Call) : option nat :=
  match cs with
  | [] => Some d
  | PushAttributes :: cs' => nesting (S d) cs'
  | PopAttributes :: cs' =>
      match d with
      | O => None
      | S d' => nesting d' cs'
      end
  | _ :: cs' => nesting d cs'
  end.

(** The two end points of a stroke. *)
Definition stroke_length_sq (c : DrawCmd) : option R :=
  match c with
  | drawLine _ a b => Some (distance a b ^ 2)
  | _ => None
  end.

(** The three ways [__update_transform] ends: at its guard, in a division
    by a zero world width or height (the transform already reset), or with
    the transform and scale recomputed. *)
Inductive update_end (self : DrawView) : Prop :=
| end_guard :
    (width self = 0 \/ height self = 0)%Z ->
    __update_transform self = (Py.Ok tt, self) ->
    update_end self
| end_raise :
    width self <> 0%Z -> height self <> 0%Z ->
    rw (world_bounds self) = 0 \/ rh (world_bounds self) = 0 ->
    __update_transform self =
      (Py.Raise Py.ZeroDivisionError,
       with_transform QTransform.identity self) ->
    update_end self
| end_recompute :
    width self <> 0%Z -> height self <> 0%Z ->
    rw (world_bounds self) <> 0 -> rh (world_bounds self) <> 0 ->
    __update_transform self =
      (Py.Ok tt,
       with_transform
         (fit_transform (IZR (width self)) (IZR (height self))
            (fit_scale (IZR (width self)) (IZR (height self))
               (world_bounds self))
            (world_bounds self))
         (with_scale
            (fit_scale (IZR (width self)) (IZR (height self))
               (world_bounds self))
            self)) ->
    update_end self.

(** What the transform is computed from, and the transform and scale. *)
Definition geometry (self : DrawView)
  : Z * Z * QRectF * option QTransform * option R :=
  (width self, height self, world_bounds self, transform self, scale self).

Definition is_geometry_call (c : Call) : bool :=
  match c with
  | Resize _ _ | SetWorldBounds _ _ _ _ => true
  | _ => false
  end.

Definition is_stack_call (c : Call) : bool :=
  match c with
  | PushAttributes | PopAttributes => true
  | _ => false
  end.

(** A view whose recompute was cut short before any scale was assigned:
    constructed at size zero, given world bounds of zero width, then
    resized. *)
Definition view_cut_short : DrawView :=
  reached metrics_40_by_12 0 0 [SetWorldBounds 0 0 0 1; Resize 400 400].

(** Calls with saves and restores nested two deep. *)
Definition nested_calls : list Call :=
  [SetStrokeColor red; PushAttributes; SetFill false; Line 0 0 1 1;
   PushAttributes; SetTextColor blue; PopAttributes; SetStrokeWidth 3;
   PopAttributes; Resize 800 600].

(** A request that names the empty file. *)
Definition names_no_file (r : BeamWindow.Request) : bool :=
  match r with
  | BeamWindow.beam_model_open_from_json f => String.eqb f ""
  | BeamWindow.beam_model_save_as_json f => String.eqb f ""
  | _ => false
  end.

(** The window as constructed: no file name yet, nothing requested. *)
Definition window_new : BeamWindow.BeamWindow :=
  {| BeamWindow.filename := ""; BeamWindow.requests := [] |}.

(** * Properties *)

(** Unfolds the statement monad so that a method run on an object reduces. *)
Ltac run :=
  cbv [Py.bind Py.ret Py.attr Py.getattr Py.setattr Py.raise Py.truediv].

(** Resolves the reads of an attribute whose value [H] gives. *)
Ltac reads H := repeat (rewrite H; cbv beta iota zeta).

(** Case analysis on an attribute that may be missing. *)
Ltac read_attr a :=
  let E := fresh "E" in
  destruct a eqn:E; cbv beta iota zeta; try reads E.

(** ** Python helpers *)

Lemma py_min_Rmin (a b : R) : Py.min a b = Rmin a b.
Proof.
  unfold Py.min, Rmin.
  destruct (Rlt_dec b a), (Rle_dec a b); lra.
Qed.

Lemma py_pop_append {A} (l : list A) (x : A) :
  Py.pop (Py.append l x) = Some (x, l).
Proof.
  unfold Py.pop, Py.append.
  rewrite rev_app_distr. simpl. now rewrite rev_involutive.
Qed.

Lemma py_pop_nil {A} (l : list A) : Py.pop l = None <-> l = [].
Proof.
  unfold Py.pop. split.
  - destruct (rev l) eqn:E; [| discriminate].
    intros _. apply (f_equal (@rev A)) in E.
    now rewrite rev_involutive in E.
  - now intros ->.
Qed.

(** ** QTransform *)

Lemma point_eta (p : QPointF) : mkPoint (px p) (py p) = p.
Proof. now destruct p. Qed.

Lemma inverted_invertible (t : QTransform) :
  QTransform.determinant t <> 0 -> snd (QTransform.inverted t) = true.
Proof.
  intros H. unfold QTransform.inverted.
  now destruct (Req_dec_T (QTransform.determinant t) 0).
Qed.

Lemma inverted_map_map (t : QTransform) (p : QPointF) :
  QTransform.determinant t <> 0 ->
  QTransform.map (fst (QTransform.inverted t)) (QTransform.map t p) = p.
Proof.
  intros H. unfold QTransform.inverted.
  destruct (Req_dec_T (QTransform.determinant t) 0) as [E | _]; [easy |].
  unfold QTransform.determinant, QTransform.map in *.
  destruct t, p; cbn in *. f_equal; field; assumption.
Qed.

Lemma map_inverted_map (t : QTransform) (p : QPointF) :
  QTransform.determinant t <> 0 ->
  QTransform.map t (QTransform.map (fst (QTransform.inverted t)) p) = p.
Proof.
  intros H. unfold QTransform.inverted.
  destruct (Req_dec_T (QTransform.determinant t) 0) as [E | _]; [easy |].
  unfold QTransform.determinant, QTransform.map in *.
  destruct t, p; cbn in *. f_equal; field; assumption.
Qed.

(** ** The transform [__update_transform] builds *)

Lemma update_transform_recomputes (self : DrawView) :
  width self <> 0%Z -> height self <> 0%Z ->
  rw (world_bounds self) <> 0 -> rh (world_bounds self) <> 0 ->
  let vw := IZR (width self) in
  let vh := IZR (height self) in
  let s := fit_scale vw vh (world_bounds self) in
  __update_transform self =
    (Py.Ok tt,
     with_transform (fit_transform vw vh s (world_bounds self))
       (with_scale s self)).
Proof.
  intros Hw Hh Hww Hwh. unfold __update_transform. run. cbn.
  destruct (Z.eqb_spec (width self) 0); [easy |].
  destruct (Z.eqb_spec (height self) 0); [easy |].
  cbn.
  destruct (Req_dec_T (rw (world_bounds self)) 0); [easy |].
  destruct (Req_dec_T (rh (world_bounds self)) 0); [easy |].
  reflexivity.
Qed.

Lemma fit_transform_map (vw vh s : R) (wb : QRectF) (x y : R) :
  QTransform.map (fit_transform vw vh s wb) (mkPoint x y) =
    mkPoint (vw / 2 + s * (x - px (center wb)))
            (vh / 2 - s * (y - py (center wb))).
Proof.
  unfold fit_transform, QTransform.map, QTransform.translate,
    QTransform.scale, QTransform.identity.
  cbn. f_equal; ring.
Qed.

Lemma fit_transform_determinant (vw vh s : R) (wb : QRectF) :
  QTransform.determinant (fit_transform vw vh s wb) = - (s * s).
Proof.
  unfold fit_transform, QTransform.determinant, QTransform.translate,
    QTransform.scale, QTransform.identity.
  cbn. ring.
Qed.

Lemma fit_scale_pos (vw vh : R) (wb : QRectF) :
  0 < vw -> 0 < vh -> 0 < rw wb -> 0 < rh wb -> 0 < fit_scale vw vh wb.
Proof.
  intros. unfold fit_scale. rewrite py_min_Rmin.
  apply Rmin_glb_lt; apply Rdiv_lt_0_compat; assumption.
Qed.

Lemma circle_paints (self : DrawView) (t : QTransform) (s x y r : R) :
  transform self = Some t -> scale self = Some s ->
  circle x y r self =
    (Py.Ok tt,
     painted [drawEllipse (effective_pen self) (effective_brush self)
                (circle_rect (QTransform.map t (mkPoint x y)) (r * Rabs s))]
       self).
Proof.
  intros Ht Hs. unfold circle, painter, transform_map, paint,
    current_pen, current_brush. run.
  rewrite Ht, Hs. reflexivity.
Qed.

(** C1. Once the transform has been recomputed for a viewport and world
    bounds of strictly positive width and height, the matrix
    [window_to_world] maps with is the inverse of the one [world_to_window]
    maps with (in both directions), and [window_to_world] applied to the
    result of [world_to_window] on a world point returns that point. *)
Theorem window_to_world_world_to_window (self : DrawView) (x y : R) :
  (0 < width self)%Z -> (0 < height self)%Z ->
  0 < rw (world_bounds self) -> 0 < rh (world_bounds self) ->
  exists (self' : DrawView) (t : QTransform),
    __update_transform self = (Py.Ok tt, self') /\
    transform self' = Some t /\
    snd (QTransform.inverted t) = true /\
    (forall q : QPointF,
        QTransform.map (fst (QTransform.inverted t)) (QTransform.map t q) = q
        /\
        QTransform.map t (QTransform.map (fst (QTransform.inverted t)) q) = q)
    /\
    exists p : QPointF,
      world_to_window x y self' = (Py.Ok p, self') /\
      window_to_world (px p) (py p) self' = (Py.Ok (mkPoint x y), self').
Proof.
  intros Hw Hh Hww Hwh.
  pose proof (fit_scale_pos (IZR (width self)) (IZR (height self))
                (world_bounds self)
                (IZR_lt 0 _ Hw) (IZR_lt 0 _ Hh) Hww Hwh) as Hs.
  set (s := fit_scale (IZR (width self)) (IZR (height self))
              (world_bounds self)) in *.
  set (t := fit_transform (IZR (width self)) (IZR (height self)) s
              (world_bounds self)).
  assert (Hdet : QTransform.determinant t <> 0).
  { unfold t. rewrite fit_transform_determinant. nra. }
  exists (with_transform t (with_scale s self)), t.
  split; [| split; [| split; [| split]]].
  - apply update_transform_recomputes; lia || lra.
  - reflexivity.
  - now apply inverted_invertible.
  - intros q. split.
    + now apply inverted_map_map.
    + now apply map_inverted_map.
  - exists (QTransform.map t (mkPoint x y)). split.
    + reflexivity.
    + unfold window_to_world. run.
      change (transform (with_transform t (with_scale s self)))
        with (Some t).
      cbv beta iota.
      now rewrite point_eta, inverted_map_map.
Qed.

Lemma window_to_world_world_to_window_witness :
  (0 < width (fresh 400 300))%Z /\ (0 < height (fresh 400 300))%Z /\
  0 < rw (world_bounds (fresh 400 300)) /\
  0 < rh (world_bounds (fresh 400 300)) /\
  exists (self' : DrawView) (t : QTransform),
    __update_transform (fresh 400 300) = (Py.Ok tt, self') /\
    transform self' = Some t /\
    snd (QTransform.inverted t) = true /\
    (forall q : QPointF,
        QTransform.map (fst (QTransform.inverted t)) (QTransform.map t q) = q
        /\
        QTransform.map t (QTransform.map (fst (QTransform.inverted t)) q) = q)
    /\
    exists p : QPointF,
      world_to_window 3 (-7) self' = (Py.Ok p, self') /\
      window_to_world (px p) (py p) self' = (Py.Ok (mkPoint 3 (-7)), self').
Proof.
  assert (H1 : (0 < width (fresh 400 300))%Z) by (cbn; lia).
  assert (H2 : (0 < height (fresh 400 300))%Z) by (cbn; lia).
  assert (H3 : 0 < rw (world_bounds (fresh 400 300))) by (cbn; lra).
  assert (H4 : 0 < rh (world_bounds (fresh 400 300))) by (cbn; lra).
  repeat split; try assumption.
  exact (window_to_world_world_to_window (fresh 400 300) 3 (-7) H1 H2 H3 H4).
Defined.

(** C2. After a recompute with strictly positive viewport and world
    dimensions, [scale] is the smaller of viewport width over world width
    and viewport height over world height; the transform is translate to
    the viewport centre, then scale by [(scale, -scale)], then translate by
    minus the world centre, so that a world point goes to the viewport
    centre plus [scale] times its offset from the world centre, the vertical
    offset negated, and the world centre goes to the viewport centre;
    [circle] draws the ellipse of half-side [r * |scale|] around the mapped
    centre.  For world bounds 20 by 10 in a 400 by 400 viewport the scale is
    20 and a circle of radius 1 is drawn with radius 20. *)
Theorem update_transform_scale_to_fit :
  (forall (self : DrawView) (x y r : R),
      (0 < width self)%Z -> (0 < height self)%Z ->
      0 < rw (world_bounds self) -> 0 < rh (world_bounds self) ->
      let vw := IZR (width self) in
      let vh := IZR (height self) in
      let wb := world_bounds self in
      let s := Rmin (vw / rw wb) (vh / rh wb) in
      exists self' : DrawView,
        __update_transform self = (Py.Ok tt, self') /\
        scale self' = Some s /\
        transform self' =
          Some (QTransform.translate (- px (center wb)) (- py (center wb))
                  (QTransform.scale s (- s)
                     (QTransform.translate (vw / 2) (vh / 2)
                        QTransform.identity))) /\
        world_to_window x y self' =
          (Py.Ok (mkPoint (vw / 2 + s * (x - px (center wb)))
                          (vh / 2 - s * (y - py (center wb)))), self') /\
        world_to_window (px (center wb)) (py (center wb)) self' =
          (Py.Ok (mkPoint (vw / 2) (vh / 2)), self') /\
        circle x y r self' =
          (Py.Ok tt,
           painted [drawEllipse (effective_pen self') (effective_brush self')
                      (circle_rect
                         (mkPoint (vw / 2 + s * (x - px (center wb)))
                                  (vh / 2 - s * (y - py (center wb))))
                         (r * Rabs s))]
             self'))
  /\
  (forall (self : DrawView) (x y : R),
      width self = 400%Z -> height self = 400%Z ->
      rw (world_bounds self) = 20 -> rh (world_bounds self) = 10 ->
      exists (self' : DrawView) (c : QPointF),
        __update_transform self = (Py.Ok tt, self') /\
        scale self' = Some 20 /\
        world_to_window x y self' = (Py.Ok c, self') /\
        circle x y 1 self' =
          (Py.Ok tt,
           painted [drawEllipse (effective_pen self') (effective_brush self')
                      (circle_rect c 20)]
             self')).
Proof.
  assert (G : forall (self : DrawView) (x y r : R),
      (0 < width self)%Z -> (0 < height self)%Z ->
      0 < rw (world_bounds self) -> 0 < rh (world_bounds self) ->
      let vw := IZR (width self) in
      let vh := IZR (height self) in
      let wb := world_bounds self in
      let s := Rmin (vw / rw wb) (vh / rh wb) in
      let self' := with_transform (fit_transform vw vh s wb)
                     (with_scale s self) in
      __update_transform self = (Py.Ok tt, self') /\
      world_to_window x y self' =
          (Py.Ok (mkPoint (vw / 2 + s * (x - px (center wb)))
                          (vh / 2 - s * (y - py (center wb)))), self') /\
      circle x y r self' =
          (Py.Ok tt,
           painted [drawEllipse (effective_pen self') (effective_brush self')
                      (circle_rect
                         (mkPoint (vw / 2 + s * (x - px (center wb)))
                                  (vh / 2 - s * (y - py (center wb))))
                         (r * Rabs s))]
             self')).
  { intros self x y r Hw Hh Hww Hwh vw vh wb s self'.
    split; [| split].
    - unfold self', s. rewrite <- py_min_Rmin.
      apply update_transform_recomputes; lia || lra.
    - unfold world_to_window. run. cbn.
      now rewrite fit_transform_map.
    - rewrite (circle_paints self' (fit_transform vw vh s wb) s x y r)
        by reflexivity.
      now rewrite fit_transform_map. }
  split.
  - intros self x y r Hw Hh Hww Hwh vw vh wb s.
    destruct (G self x y r Hw Hh Hww Hwh) as (Hu & Hm & Hc).
    destruct (G self (px (center wb)) (py (center wb)) r Hw Hh Hww Hwh)
      as (_ & Hm0 & _).
    fold vw vh wb s in Hu, Hm, Hc, Hm0.
    eexists. split; [exact Hu |].
    split; [reflexivity |]. split; [reflexivity |].
    split; [exact Hm |]. split; [| exact Hc].
    rewrite Hm0. do 2 f_equal. f_equal; ring.
  - intros self x y Hw Hh Hww Hwh.
    assert (Hs : Rmin (IZR (width self) / rw (world_bounds self))
                   (IZR (height self) / rh (world_bounds self)) = 20).
    { rewrite Hw, Hh, Hww, Hwh. unfold Rmin.
      destruct (Rle_dec (400 / 20) (400 / 10)); lra. }
    destruct (G self x y 1) as (Hu & Hm & Hc);
      [lia | lia | lra | lra |].
    rewrite Hs in Hu, Hm, Hc.
    eexists. eexists. split; [exact Hu |]. split; [reflexivity |].
    split; [exact Hm |].
    rewrite Hc. replace (Rabs 20) with 20 by (rewrite Rabs_right; lra).
    now rewrite Rmult_1_l.
Qed.

Lemma update_transform_scale_to_fit_witness :
  ((0 < width view_20_by_10)%Z /\ (0 < height view_20_by_10)%Z /\
   0 < rw (world_bounds view_20_by_10) /\
   0 < rh (world_bounds view_20_by_10) /\
   exists self' : DrawView,
     __update_transform view_20_by_10 = (Py.Ok tt, self') /\
     scale self' = Some (Rmin (400 / 20) (400 / 10)))
  /\
  (width view_20_by_10 = 400%Z /\ height view_20_by_10 = 400%Z /\
   rw (world_bounds view_20_by_10) = 20 /\
   rh (world_bounds view_20_by_10) = 10 /\
   exists (self' : DrawView) (c : QPointF),
     __update_transform view_20_by_10 = (Py.Ok tt, self') /\
     scale self' = Some 20 /\
     world_to_window 0 0 self' = (Py.Ok c, self') /\
     circle 0 0 1 self' =
       (Py.Ok tt,
        painted [drawEllipse (effective_pen self') (effective_brush self')
                   (circle_rect c 20)]
          self')).
Proof.
  assert (H1 : (0 < width view_20_by_10)%Z) by (cbn; lia).
  assert (H2 : (0 < height view_20_by_10)%Z) by (cbn; lia).
  assert (H3 : 0 < rw (world_bounds view_20_by_10)) by (cbn; lra).
  assert (H4 : 0 < rh (world_bounds view_20_by_10)) by (cbn; lra).
  split.
  - repeat split; try assumption.
    destruct (proj1 update_transform_scale_to_fit view_20_by_10 0 0 1
                H1 H2 H3 H4) as (self' & Hu & Hs & _).
    exists self'. split; [exact Hu | exact Hs].
  - repeat split.
    exact (proj2 update_transform_scale_to_fit view_20_by_10 0 0
             eq_refl eq_refl eq_refl eq_refl).
Defined.

(** C4, as the code has it. If the widget's width or height is zero,
    [__update_transform] returns at its guard: the object, with whatever
    transform and scale it had, is left as it was, and no exception is
    raised, whatever the world bounds (no quotient is taken). *)
Theorem update_transform_zero_viewport (self : DrawView) :
  (width self = 0 \/ height self = 0)%Z ->
  __update_transform self = (Py.Ok tt, self).
Proof.
  intros H. unfold __update_transform. run.
  destruct H as [H | H]; rewrite H.
  - reflexivity.
  - now rewrite orb_true_r.
Qed.

Lemma update_transform_zero_viewport_witness :
  (width view_flat = 0 \/ height view_flat = 0)%Z /\
  __update_transform view_flat = (Py.Ok tt, view_flat).
Proof.
  assert (H : (width view_flat = 0 \/ height view_flat = 0)%Z)
    by (right; reflexivity).
  split; [exact H |].
  exact (update_transform_zero_viewport view_flat H).
Defined.

Lemma init_400_400 :
  __init__ 400 400 =
    with_transform
      (fit_transform 400 400 (fit_scale 400 400 (mkRect (-10) (-10) 20 20))
         (mkRect (-10) (-10) 20 20))
      (with_scale (fit_scale 400 400 (mkRect (-10) (-10) 20 20))
         (fresh 400 400)).
Proof.
  unfold __init__. rewrite update_transform_recomputes; cbn; try lia; try lra.
  reflexivity.
Qed.

Lemma fit_scale_400_400 : fit_scale 400 400 (mkRect (-10) (-10) 20 20) = 20.
Proof.
  unfold fit_scale, Py.min. cbn.
  destruct (Rlt_dec (400 / 20) (400 / 20)); lra.
Qed.

(** C4 as stated fails: the guard tests for zero only.  On a view computed
    at 400 by 400 (scale 20) whose widget then reports the width -1, the
    recompute runs and replaces the scale by -1/20. *)
Lemma update_transform_negative_width_recomputes :
  let self := with_width (-1) (__init__ 400 400) in
  (width self <= 0)%Z /\
  scale self = Some 20 /\
  scale (snd (__update_transform self)) = Some (- (1 / 20)) /\
  __update_transform self <> (Py.Ok tt, self).
Proof.
  cbv zeta.
  assert (Hs : scale (with_width (-1) (__init__ 400 400)) = Some 20).
  { rewrite init_400_400. cbn. now rewrite fit_scale_400_400. }
  assert (Hs' : scale (snd (__update_transform
                              (with_width (-1) (__init__ 400 400))))
                = Some (- (1 / 20))).
  { rewrite update_transform_recomputes;
      rewrite ?init_400_400; cbn; try lia; try lra.
    f_equal. unfold fit_scale, Py.min. cbn.
    destruct (Rlt_dec (400 / 20) (-1 / 20)); lra. }
  split; [cbn; lia |].
  split; [exact Hs |]. split; [exact Hs' |].
  intros E. rewrite E in Hs'. cbn [snd] in Hs'. rewrite Hs in Hs'.
  injection Hs'. lra.
Qed.

(** ** The attribute stack *)

Lemma pop_attributes_nothing_saved (self : DrawView) :
  __attribute_stack self = [] ->
  pop_attributes self = (Py.Ok tt, self).
Proof.
  intros H. unfold pop_attributes. run. now rewrite H.
Qed.

(** C9. With an empty attribute stack, [pop_attributes] returns without an
    exception and leaves the object as it was: the six style attributes,
    the (empty) stack and everything else. *)
Theorem pop_attributes_empty_stack (self : DrawView) :
  __attribute_stack self = [] ->
  pop_attributes self = (Py.Ok tt, self) /\
  outcome pop_attributes self = Py.Ok tt /\
  style_state (after pop_attributes self) = style_state self /\
  __attribute_stack (after pop_attributes self) = [].
Proof.
  intros H. pose proof (pop_attributes_nothing_saved self H) as E.
  unfold outcome, after. rewrite E. cbn [fst snd]. now rewrite H.
Qed.

Lemma pop_attributes_empty_stack_witness :
  __attribute_stack (with_stroke_color red (__init__ 400 400)) = [] /\
  pop_attributes (with_stroke_color red (__init__ 400 400)) =
    (Py.Ok tt, with_stroke_color red (__init__ 400 400)).
Proof.
  assert (H : __attribute_stack (with_stroke_color red (__init__ 400 400)) = [])
    by (rewrite init_400_400; reflexivity).
  split; [exact H |].
  exact (proj1 (pop_attributes_empty_stack _ H)).
Defined.

Lemma update_transform_style (self : DrawView) :
  let self' := after __update_transform self in
  style_state self' = style_state self /\
  __attribute_stack self' = __attribute_stack self /\
  __text_color self' = __text_color self.
Proof.
  unfold after, __update_transform. run. cbn.
  destruct ((width self =? 0)%Z || (height self =? 0)%Z); cbn; [easy |].
  destruct (Req_dec_T (rw (world_bounds self)) 0); cbn; [easy |].
  destruct (Req_dec_T (rh (world_bounds self)) 0); cbn; easy.
Qed.

Lemma init_style (w h : Z) :
  style_state (__init__ w h) = (black, white, 1, None, true, true) /\
  __attribute_stack (__init__ w h) = [] /\
  __text_color (__init__ w h) = black.
Proof.
  destruct (update_transform_style (fresh w h)) as (H1 & H2 & H3).
  unfold __init__. fold (after __update_transform (fresh w h)).
  rewrite H1, H2, H3. easy.
Qed.

(** ** What the primitives paint *)

Ltac branch :=
  match goal with
  | |- context [match ?x with Some _ => _ | None => _ end] =>
      destruct x eqn:?
  | |- context [if ?x then _ else _] => destruct x eqn:?
  end.

Ltac unfold_methods :=
  unfold line, rect, circle, triangle, polygon, arrow, text, painter,
    transform_map, paint, current_pen, current_brush, push_attributes,
    pop_attributes, set_stroke_color, set_fill_color, set_stroke_width,
    set_text_color, set_stroke, set_fill, set_current_pen,
    set_current_brush, stroke_color, fill_color, stroke_width, text_color,
    stroke, fill, resizeEvent, set_world_bounds.

Lemma line_paints (self : DrawView) (t : QTransform) (x1 y1 x2 y2 : R) :
  transform self = Some t ->
  line x1 y1 x2 y2 self =
    (Py.Ok tt,
     painted [drawLine (effective_pen self)
                (QTransform.map t (mkPoint x1 y1))
                (QTransform.map t (mkPoint x2 y2))] self).
Proof. intros Ht. unfold_methods. run. reads Ht. reflexivity. Qed.

Lemma rect_paints (self : DrawView) (t : QTransform) (x y w h : R) :
  transform self = Some t ->
  rect x y w h self =
    (Py.Ok tt,
     painted [drawRect (effective_pen self) (effective_brush self)
                (rect_of_corners (QTransform.map t (mkPoint x y))
                   (QTransform.map t (mkPoint (x + w) (y + h))))] self).
Proof. intros Ht. unfold_methods. run. reads Ht. reflexivity. Qed.

Lemma triangle_paints (self : DrawView) (t : QTransform) (x y w h : R) :
  transform self = Some t ->
  triangle x y w h self =
    (Py.Ok tt,
     painted [drawPolygon (effective_pen self) (effective_brush self)
                [QTransform.map t (mkPoint x y);
                 QTransform.map t (mkPoint (x + w / 2) (y - h));
                 QTransform.map t (mkPoint (x - w / 2) (y - h))]] self).
Proof. intros Ht. unfold_methods. run. reads Ht. reflexivity. Qed.

Lemma comprehension_map (self : DrawView) (t : QTransform)
    (points : list (R * R)) :
  transform self = Some t ->
  Py.comprehension (fun xy => transform_map (fst xy) (snd xy)) points self =
    (Py.Ok (map (fun xy => QTransform.map t (mkPoint (fst xy) (snd xy)))
              points), self).
Proof.
  intros Ht. induction points as [| xy points IH]; [reflexivity |].
  cbn [Py.comprehension map]. unfold Py.bind at 1.
  unfold transform_map at 1. run. rewrite Ht.
  unfold Py.bind in IH |- *. now rewrite IH.
Qed.

Lemma comprehension_unset (self : DrawView) (points : list (R * R)) :
  transform self = None ->
  snd (Py.comprehension (fun xy => transform_map (fst xy) (snd xy))
         points self) = self.
Proof.
  intros Ht. destruct points as [| xy points]; [reflexivity |].
  cbn [Py.comprehension]. unfold Py.bind at 1.
  unfold transform_map at 1. run. now rewrite Ht.
Qed.

Lemma polygon_paints (self : DrawView) (t : QTransform)
    (points : list (R * R)) :
  transform self = Some t ->
  polygon points self =
    (Py.Ok tt,
     painted [drawPolygon (effective_pen self) (effective_brush self)
                (map (fun xy => QTransform.map t (mkPoint (fst xy) (snd xy)))
                   points)] self).
Proof.
  intros Ht. unfold polygon, painter, current_pen, current_brush, paint.
  unfold Py.bind at 1. run.
  unfold Py.bind. now rewrite (comprehension_map self t points Ht).
Qed.

Lemma comprehension_frame (points : list (R * R)) (self : DrawView) :
  snd (Py.comprehension (fun xy => transform_map (fst xy) (snd xy))
         points self) = self.
Proof.
  destruct (transform self) as [t |] eqn:Ht.
  - now rewrite (comprehension_map self t points Ht).
  - now apply comprehension_unset.
Qed.

(** A primitive changes nothing of the object but its surface. *)
Lemma primitive_frame (fm : QFont -> QFontMetrics) (c : Call)
    (self : DrawView) :
  is_primitive c = true ->
  unpainted (after (perform fm c) self) = unpainted self.
Proof.
  destruct c; try discriminate; intros _; unfold after, perform.
  - (* polygon *)
    unfold polygon, painter, current_pen, current_brush, paint.
    unfold Py.bind at 1. run. unfold Py.bind.
    pose proof (comprehension_frame points self) as E.
    destruct (Py.comprehension _ points self) as [[ps | e] s'];
      cbn in E; subst s'; reflexivity.
  - unfold_methods. run. read_attr (transform self); reflexivity.
  - (* arrow *)
    unfold_methods. run.
    read_attr (transform self); [| reflexivity].
    repeat (branch; cbv beta iota zeta; try reflexivity).
  - unfold_methods. run. read_attr (transform self); reflexivity.
  - unfold_methods. run.
    read_attr (transform self); [| reflexivity].
    read_attr (scale self); reflexivity.
  - unfold_methods. run. read_attr (transform self); reflexivity.
  - unfold_methods. run.
    read_attr (scale self); [| reflexivity].
    read_attr (transform self); reflexivity.
Qed.







(** ** [text_color] before its first assignment *)

Lemma primitive_keeps {A} (f : DrawView -> A) (fm : QFont -> QFontMetrics)
    (c : Call) (self : DrawView) :
  (forall s, f (unpainted s) = f s) ->
  is_primitive c = true ->
  f (after (perform fm c) self) = f self.
Proof.
  intros Hf Hp. rewrite <- (Hf (after (perform fm c) self)), <- (Hf self).
  now rewrite primitive_frame.
Qed.

Lemma perform_text_color_unset (fm : QFont -> QFontMetrics) (c : Call)
    (self : DrawView) :
  is_SetTextColor c = false ->
  text_color_unset self -> text_color_unset (after (perform fm c) self).
Proof.
  intros Hc [Hf Hk]. unfold text_color_unset.
  destruct (is_primitive c) eqn:Hp.
  - rewrite (primitive_keeps __font_color), (primitive_keeps __attribute_stack)
      by easy.
    easy.
  - destruct c; try discriminate; unfold perform.
    + unfold resizeEvent, after. run.
      destruct (update_transform_style (with_height h (with_width w self)))
        as (H1 & H2 & _).
      injection H1 as _ _ _ H1 _ _. unfold after in H1, H2.
      now rewrite H1, H2.
    + unfold set_world_bounds, after. run.
      destruct (update_transform_style
                  (with_world_bounds (mkRect xmin ymin w h) self))
        as (H1 & H2 & _).
      injection H1 as _ _ _ H1 _ _. unfold after in H1, H2.
      now rewrite H1, H2.
    + easy.
    + easy.
    + easy.
    + unfold after; destruct b; easy.
    + unfold after; destruct b; easy.
    + unfold after. unfold_methods. run. rewrite Hf. easy.
    + unfold after. unfold_methods. run. rewrite Hk. easy.
Qed.

Lemma after_calls_text_color_unset (fm : QFont -> QFontMetrics)
    (cs : list Call) (self : DrawView) :
  forallb (fun c => negb (is_SetTextColor c)) cs = true ->
  text_color_unset self -> text_color_unset (after_calls fm cs self).
Proof.
  revert self. induction cs as [| c cs IH]; intros self Hcs H; [exact H |].
  cbn in Hcs. apply andb_prop in Hcs as [Hc Hcs].
  cbn. apply IH; [exact Hcs |].
  apply perform_text_color_unset; [| exact H].
  now apply negb_true_iff.
Qed.

(** C10. The constructor assigns [__text_color] but not [__font_color],
    which the [text_color] getter returns.  On a freshly constructed view,
    and after any calls among which the [text_color] setter does not occur,
    reading [text_color] raises [AttributeError], and so does
    [push_attributes], which reads it; both leave the object as it was.
    Once the setter has run, a read returns the value last set. *)
Theorem text_color_unset_until_set :
  (forall w h : Z,
      __text_color (__init__ w h) = black /\ __font_color (__init__ w h) = None)
  /\
  (forall (fm : QFont -> QFontMetrics) (w h : Z) (cs : list Call),
      forallb (fun c => negb (is_SetTextColor c)) cs = true ->
      let self := after_calls fm cs (__init__ w h) in
      text_color self = (Py.Raise Py.AttributeError, self) /\
      push_attributes self = (Py.Raise Py.AttributeError, self))
  /\
  (forall (self : DrawView) (c : Color),
      text_color (after (set_text_color c) self) =
        (Py.Ok c, after (set_text_color c) self))
  /\
  (forall (self : DrawView) (c c' : Color),
      text_color
        (after (set_text_color c') (after (set_text_color c) self)) =
        (Py.Ok c', after (set_text_color c') (after (set_text_color c) self))).
Proof.
  assert (Hinit : forall w h, text_color_unset (__init__ w h)).
  { intros w h. destruct (init_style w h) as (Hs & Hk & _).
    injection Hs as _ _ _ Hf _ _. now split. }
  split; [| split; [| split]].
  - intros w h. split; [apply init_style | apply Hinit].
  - intros fm w h cs Hcs self.
    destruct (after_calls_text_color_unset fm cs (__init__ w h) Hcs (Hinit w h))
      as [Hf _].
    fold self in Hf. split.
    + unfold text_color. run. now rewrite Hf.
    + unfold_methods. run. now rewrite Hf.
  - intros self c. reflexivity.
  - intros self c c'. reflexivity.
Qed.

Lemma text_color_unset_until_set_witness :
  forallb (fun c => negb (is_SetTextColor c)) calls_without_text_color = true
  /\
  let self :=
    after_calls (fun _ => mkMetrics (fun _ => 40%Z) 12)
      calls_without_text_color (__init__ 400 400) in
  text_color self = (Py.Raise Py.AttributeError, self) /\
  push_attributes self = (Py.Raise Py.AttributeError, self).
Proof.
  split; [reflexivity |].
  exact (proj1 (proj2 text_color_unset_until_set)
           (fun _ => mkMetrics (fun _ => 40%Z) 12) 400%Z 400%Z
           calls_without_text_color eq_refl).
Defined.

(** ** [arrow] *)

Lemma sum_squares_nonneg (a b : R) : 0 <= a ^ 2 + b ^ 2.
Proof. apply Rplus_le_le_0_compat; apply pow2_ge_0. Qed.

Lemma sum_squares_zero (a b : R) : a ^ 2 + b ^ 2 = 0 -> a = 0 /\ b = 0.
Proof.
  intros H. apply Rplus_sqr_eq_0. now rewrite !Rsqr_pow2.
Qed.

Lemma distance_zero (p1 p2 : QPointF) : distance p1 p2 = 0 <-> p1 = p2.
Proof.
  unfold distance. split.
  - intros H. apply sqrt_eq_0 in H; [| apply sum_squares_nonneg].
    apply sum_squares_zero in H as [Hx Hy].
    destruct p1 as [a b], p2 as [c d]; cbn in *.
    f_equal; lra.
  - intros ->. replace ((px p2 - px p2) ^ 2 + (py p2 - py p2) ^ 2) with 0
      by ring.
    apply sqrt_0.
Qed.

Lemma unit_direction (p1 p2 : QPointF) :
  distance p1 p2 <> 0 ->
  ((px p2 - px p1) / distance p1 p2) ^ 2 +
  ((py p2 - py p1) / distance p1 p2) ^ 2 = 1.
Proof.
  intros H.
  assert (Hsq : distance p1 p2 * distance p1 p2 =
                (px p2 - px p1) ^ 2 + (py p2 - py p1) ^ 2).
  { unfold distance. apply sqrt_sqrt, sum_squares_nonneg. }
  set (d := distance p1 p2) in *.
  replace (((px p2 - px p1) / d) ^ 2 + ((py p2 - py p1) / d) ^ 2)
    with (((px p2 - px p1) ^ 2 + (py p2 - py p1) ^ 2) / (d * d))
    by (field; exact H).
  rewrite <- Hsq. field. exact H.
Qed.

Lemma painted_painted (a b : list DrawCmd) (self : DrawView) :
  painted b (painted a self) = painted (a ++ b) self.
Proof. unfold painted. cbn. now rewrite app_assoc. Qed.

Lemma paint_painted (c : DrawCmd) (self : DrawView) :
  paint c self = (Py.Ok tt, painted [c] self).
Proof. reflexivity. Qed.

Lemma arrow_degenerate (self : DrawView) (t : QTransform)
    (x1 y1 x2 y2 n : R) (arrow_start arrow_end : bool) :
  transform self = Some t ->
  distance (QTransform.map t (mkPoint x1 y1))
           (QTransform.map t (mkPoint x2 y2)) = 0 ->
  arrow x1 y1 x2 y2 n arrow_start arrow_end self =
    (Py.Ok tt,
     painted [drawLine (QPen_color black)
                (QTransform.map t (mkPoint x1 y1))
                (QTransform.map t (mkPoint x2 y2))] self).
Proof.
  intros Ht Hd. unfold arrow, transform_map, paint. run. reads Ht.
  unfold distance in Hd. unfold Py.pow_half.
  destruct (Req_dec_T _ 0) as [_ | Hn]; [reflexivity | now elim Hn].
Qed.

Lemma arrow_heads (self : DrawView) (t : QTransform)
    (s x1 y1 x2 y2 n : R) (arrow_start arrow_end : bool) :
  transform self = Some t -> scale self = Some s ->
  let p1 := QTransform.map t (mkPoint x1 y1) in
  let p2 := QTransform.map t (mkPoint x2 y2) in
  let ux := (px p2 - px p1) / distance p1 p2 in
  let uy := (py p2 - py p1) / distance p1 p2 in
  distance p1 p2 <> 0 ->
  arrow x1 y1 x2 y2 n arrow_start arrow_end self =
    (Py.Ok tt,
     painted
       (drawLine (QPen_color black) p1 p2
        :: (if arrow_end
            then head_strokes (QPen_color black) p2 (- ux) (- uy)
                   (n * Rabs s) (- (n * Rabs s / 2))
            else [])
        ++ (if arrow_start
            then head_strokes (QPen_color black) p1 ux uy
                   (n * Rabs s) (n * Rabs s / 2)
            else []))
       self).
Proof.
  intros Ht Hs p1 p2 ux uy Hd.
  unfold arrow, transform_map. run. reads Ht.
  rewrite paint_painted. cbv beta iota zeta.
  fold p1 p2. unfold Py.pow_half. fold (distance p1 p2).
  destruct (Req_dec_T (distance p1 p2) 0) as [E | _]; [now elim Hd |].
  cbv beta iota zeta.
  change (scale (painted [drawLine (p_pen QPainter_on_widget) p1 p2] self))
    with (scale self).
  reads Hs. fold ux uy. unfold Py.abs.
  set (k := n * Rabs s).
  assert (E3 : mkPoint (px p2 - ux * k + uy * k / 2)
                       (py p2 - uy * k - ux * k / 2)
               = head_point p2 (- ux) (- uy) k (- (k / 2))).
  { unfold head_point. f_equal; field. }
  assert (E4 : mkPoint (px p2 - ux * k - uy * k / 2)
                       (py p2 - uy * k + ux * k / 2)
               = head_point p2 (- ux) (- uy) k (- - (k / 2))).
  { unfold head_point. f_equal; field. }
  assert (E5 : mkPoint (px p1 + ux * k + uy * k / 2)
                       (py p1 + uy * k - ux * k / 2)
               = head_point p1 ux uy k (k / 2)).
  { unfold head_point. f_equal; field. }
  assert (E6 : mkPoint (px p1 + ux * k - uy * k / 2)
                       (py p1 + uy * k + ux * k / 2)
               = head_point p1 ux uy k (- (k / 2))).
  { unfold head_point. f_equal; field. }
  rewrite E3, E4, E5, E6.
  destruct arrow_end, arrow_start; cbv beta iota zeta;
    rewrite ?paint_painted; cbv beta iota zeta;
    rewrite ?paint_painted; cbv beta iota zeta;
    rewrite ?paint_painted; cbv beta iota zeta;
    rewrite ?paint_painted; cbv beta iota zeta;
    rewrite ?painted_painted; reflexivity.
Qed.

(** C6. [arrow] draws the shaft between the mapped end points.  If the
    vector between them has length zero (the mapped points coincide, as for
    [arrow(5, 5, 5, 5, ...)]) nothing else is drawn.  Otherwise, with [(ux,
    uy)] the vector divided by its length (a unit vector) and [k = arrow_size
    * |scale|], each requested end gets two strokes from that end to the
    points [k] back along the shaft and [k / 2] to either side of it: first
    the head at the second end point, then the head at the first. *)
Theorem arrow_shaft_and_heads (self : DrawView) (t : QTransform)
    (s x1 y1 x2 y2 n : R) (arrow_start arrow_end : bool) :
  transform self = Some t -> scale self = Some s ->
  let p1 := QTransform.map t (mkPoint x1 y1) in
  let p2 := QTransform.map t (mkPoint x2 y2) in
  let ux := (px p2 - px p1) / distance p1 p2 in
  let uy := (py p2 - py p1) / distance p1 p2 in
  let k := n * Rabs s in
  (distance p1 p2 = 0 <-> p1 = p2) /\
  (distance p1 p2 = 0 ->
   arrow x1 y1 x2 y2 n arrow_start arrow_end self =
     (Py.Ok tt, painted [drawLine (QPen_color black) p1 p2] self)) /\
  (distance p1 p2 <> 0 ->
   ux ^ 2 + uy ^ 2 = 1 /\
   arrow x1 y1 x2 y2 n arrow_start arrow_end self =
     (Py.Ok tt,
      painted
        (drawLine (QPen_color black) p1 p2
         :: (if arrow_end
             then [drawLine (QPen_color black) p2
                     (head_point p2 (- ux) (- uy) k (- (k / 2)));
                   drawLine (QPen_color black) p2
                     (head_point p2 (- ux) (- uy) k (k / 2))]
             else [])
         ++ (if arrow_start
             then [drawLine (QPen_color black) p1
                     (head_point p1 ux uy k (k / 2));
                   drawLine (QPen_color black) p1
                     (head_point p1 ux uy k (- (k / 2)))]
             else []))
        self)) /\
  arrow 5 5 5 5 n arrow_start arrow_end self =
    (Py.Ok tt,
     painted [drawLine (QPen_color black)
                (QTransform.map t (mkPoint 5 5))
                (QTransform.map t (mkPoint 5 5))] self).
Proof.
  intros Ht Hs p1 p2 ux uy k.
  split; [apply distance_zero |].
  split; [intros Hd; now apply arrow_degenerate |].
  split.
  - intros Hd. split; [now apply unit_direction |].
    rewrite (arrow_heads self t s x1 y1 x2 y2 n arrow_start arrow_end Ht Hs Hd).
    fold p1 p2 ux uy k. unfold head_strokes.
    now rewrite Ropp_involutive.
  - apply arrow_degenerate; [exact Ht |]. now apply distance_zero.
Qed.

Lemma init_400_400_transform :
  transform (__init__ 400 400) =
    Some (fit_transform 400 400 20 (mkRect (-10) (-10) 20 20)) /\
  scale (__init__ 400 400) = Some 20.
Proof.
  rewrite init_400_400. cbn [transform scale with_transform with_scale].
  now rewrite fit_scale_400_400.
Qed.

Lemma init_400_400_map (x y : R) :
  QTransform.map (fit_transform 400 400 20 (mkRect (-10) (-10) 20 20))
    (mkPoint x y) = mkPoint (200 + 20 * x) (200 - 20 * y).
Proof.
  rewrite fit_transform_map. cbn. f_equal; field.
Qed.

Lemma arrow_shaft_and_heads_witness :
  transform (__init__ 400 400) =
    Some (fit_transform 400 400 20 (mkRect (-10) (-10) 20 20)) /\
  scale (__init__ 400 400) = Some 20 /\
  arrow 5 5 5 5 5 true true (__init__ 400 400) =
    (Py.Ok tt,
     painted [drawLine (QPen_color black)
                (QTransform.map
                   (fit_transform 400 400 20 (mkRect (-10) (-10) 20 20))
                   (mkPoint 5 5))
                (QTransform.map
                   (fit_transform 400 400 20 (mkRect (-10) (-10) 20 20))
                   (mkPoint 5 5))] (__init__ 400 400)).
Proof.
  destruct init_400_400_transform as [Ht Hs].
  split; [exact Ht |]. split; [exact Hs |].
  exact (proj2 (proj2 (proj2
    (arrow_shaft_and_heads (__init__ 400 400) _ 20 0 0 1 0 5 true true
       Ht Hs)))).
Defined.

(** ** The style the primitives draw with *)


(** C5 at a failing input. On a 400 by 400 view with [stroke] switched off,
    [line] draws with the [NoPen] pen, as the style says, while [arrow]
    draws its shaft and its four head strokes with the solid pen its own
    painter starts with: it opens [QPainter(self)] instead of calling
    [painter()]. *)
Theorem arrow_strokes_with_stroke_off :
  let self := after (set_stroke false) (__init__ 400 400) in
  __stroke self = false /\
  pen_style (effective_pen self) = NoPen /\
  line 0 0 1 0 self =
    (Py.Ok tt,
     painted [drawLine QPen_NoPen (mkPoint 200 200) (mkPoint 220 200)] self)
  /\
  exists cmds : list DrawCmd,
    arrow 0 0 1 0 5 true true self = (Py.Ok tt, painted cmds self) /\
    List.length cmds = 5%nat /\
    Forall (fun c => cmd_pen c = QPen_color black /\
                     pen_style (cmd_pen c) = SolidLine) cmds.
Proof.
  cbv zeta. destruct init_400_400_transform as [Ht Hs].
  set (self := after (set_stroke false) (__init__ 400 400)).
  assert (Ht' : transform self =
                Some (fit_transform 400 400 20 (mkRect (-10) (-10) 20 20)))
    by exact Ht.
  assert (Hs' : scale self = Some 20) by exact Hs.
  assert (Hpen : effective_pen self = QPen_NoPen).
  { unfold self. rewrite init_400_400. reflexivity. }
  split; [unfold self; rewrite init_400_400; reflexivity |].
  split; [now rewrite Hpen |].
  split.
  - rewrite (line_paints self _ 0 0 1 0 Ht'), Hpen, !init_400_400_map.
    do 4 f_equal; f_equal; ring.
  - eexists. split; [| split].
    + apply (arrow_heads self _ 20 0 0 1 0 5 true true Ht' Hs').
      intros E. apply distance_zero in E. rewrite !init_400_400_map in E.
      injection E. lra.
    + reflexivity.
    + repeat constructor.
Qed.

(** ** Saving and restoring the style *)

Lemma push_attributes_saves (self : DrawView) (c : Color) :
  __font_color self = Some c ->
  push_attributes self =
    (Py.Ok tt,
     with_attribute_stack
       (Py.append (__attribute_stack self)
          (__stroke_color self, __fill_color self, __stroke_width self, c,
           __stroke self, __fill self))
       self).
Proof.
  intros Hf. unfold_methods. run. now rewrite Hf.
Qed.

Lemma pop_attributes_restores (self : DrawView) (rest : list Attributes)
    (sc fc : Color) (sw : R) (tc : Color) (s f : bool) :
  __attribute_stack self = Py.append rest (sc, fc, sw, tc, s, f) ->
  outcome pop_attributes self = Py.Ok tt /\
  style_state (after pop_attributes self) = (sc, fc, sw, Some tc, s, f) /\
  __attribute_stack (after pop_attributes self) = rest /\
  pen_color (text_pen (after pop_attributes self)) = tc.
Proof.
  intros Hk. unfold outcome, after. unfold_methods. run.
  rewrite Hk, py_pop_append. cbv beta iota zeta.
  destruct s, f; repeat split; reflexivity.
Qed.

(** When [text_color] has been assigned, a save followed by a restore
    returns without an exception and leaves the six style attributes and
    the stack as they were; if moreover the pens and brushes agreed with the
    style attributes, the whole object is as it was. *)
Lemma push_pop_attributes (self : DrawView) (c : Color) :
  __font_color self = Some c ->
  let self' := after pop_attributes (after push_attributes self) in
  outcome push_attributes self = Py.Ok tt /\
  outcome pop_attributes (after push_attributes self) = Py.Ok tt /\
  style_state self' = style_state self /\
  __attribute_stack self' = __attribute_stack self /\
  (tools_consistent self -> pen_color (text_pen self) = c -> self' = self).
Proof.
  intros Hf self'.
  pose proof (push_attributes_saves self c Hf) as Hpush.
  assert (Ha : after push_attributes self =
               with_attribute_stack
                 (Py.append (__attribute_stack self)
                    (__stroke_color self, __fill_color self,
                     __stroke_width self, c, __stroke self, __fill self))
                 self)
    by (unfold after; now rewrite Hpush).
  destruct (pop_attributes_restores (after push_attributes self)
              (__attribute_stack self) (__stroke_color self)
              (__fill_color self) (__stroke_width self) c
              (__stroke self) (__fill self)) as (Ho & Hs & Hk & _).
  { now rewrite Ha. }
  split; [unfold outcome; now rewrite Hpush |].
  split; [exact Ho |].
  split; [fold self' in Hs; rewrite Hs; unfold style_state; now rewrite Hf |].
  split; [exact Hk |].
  intros (H1 & H2 & H3 & H4 & H5 & H6) Hc.
  unfold self'. rewrite Ha. unfold after. unfold_methods. run.
  cbn [__attribute_stack with_attribute_stack].
  rewrite py_pop_append. cbv beta iota zeta.
  destruct self as [w h wb tr scl sc fc sw tcf fnt s f sp fb nfb nsp cp cb
                      stk fo tp sf].
  cbn in *. subst. destruct tp as [tpc tpw tps]. cbn in *. subst.
  destruct s, f; reflexivity.
Qed.

(** With a change of the stroke colour between the save and the restore,
    the restore brings the stroke colour back and the other five style
    attributes are as before the save. *)
Lemma push_set_stroke_color_pop (self : DrawView) (c c' : Color) :
  __font_color self = Some c ->
  let self' :=
    after pop_attributes
      (after (set_stroke_color c') (after push_attributes self)) in
  __stroke_color (after (set_stroke_color c') (after push_attributes self))
    = c' /\
  style_state self' = style_state self /\
  __attribute_stack self' = __attribute_stack self.
Proof.
  intros Hf self'. split; [reflexivity |].
  pose proof (push_attributes_saves self c Hf) as Hpush.
  destruct (pop_attributes_restores
              (after (set_stroke_color c') (after push_attributes self))
              (__attribute_stack self) (__stroke_color self)
              (__fill_color self) (__stroke_width self) c
              (__stroke self) (__fill self)) as (_ & Hs & Hk & _).
  { unfold after at 2. now rewrite Hpush. }
  fold self' in Hs, Hk.
  split; [rewrite Hs; unfold style_state; now rewrite Hf | exact Hk].
Qed.

(** C3 at a failing input. On a freshly constructed view [push_attributes]
    raises [AttributeError] and saves nothing, so that the restore which
    follows the change of the stroke colour finds the stack empty and the
    stroke colour stays at the new value instead of going back. *)
Theorem push_attributes_fresh_view_raises :
  let self := __init__ 400 400 in
  let self1 := after push_attributes self in
  let self2 := after (set_stroke_color red) self1 in
  let self3 := after pop_attributes self2 in
  push_attributes self = (Py.Raise Py.AttributeError, self) /\
  __attribute_stack self1 = [] /\
  pop_attributes self2 = (Py.Ok tt, self2) /\
  __stroke_color self = black /\
  __stroke_color self3 = red.
Proof.
  cbv zeta.
  destruct (init_style 400 400) as (Hs & Hk & _).
  injection Hs as Hsc _ _ Hf _ _.
  assert (Hpush : push_attributes (__init__ 400 400) =
                  (Py.Raise Py.AttributeError, __init__ 400 400)).
  { unfold_methods. run. now rewrite Hf. }
  assert (Ha : after push_attributes (__init__ 400 400) = __init__ 400 400)
    by (unfold after; now rewrite Hpush).
  rewrite Ha.
  assert (Hpop : pop_attributes
                   (after (set_stroke_color red) (__init__ 400 400))
                 = (Py.Ok tt,
                    after (set_stroke_color red) (__init__ 400 400))).
  { apply pop_attributes_nothing_saved. exact Hk. }
  split; [exact Hpush |]. split; [exact Hk |]. split; [exact Hpop |].
  split; [exact Hsc |].
  unfold after at 1. now rewrite Hpop.
Qed.

(** ** [triangle] *)

(** C7, as the code has it. [triangle(x, y, w, h)] maps three world points
    one by one and draws them as one polygon with the pen and brush of
    [painter()]: the apex [(x, y)] and the two ends of the base, [(x + w/2,
    y - h)] and [(x - w/2, y - h)].  The base is centred at [(x, y - h)]
    with half-width [w / 2], and the two sides from the apex have the same
    length. *)
Theorem triangle_apex_at_anchor (self : DrawView) (t : QTransform)
    (x y w h : R) :
  transform self = Some t ->
  triangle x y w h self =
    (Py.Ok tt,
     painted [drawPolygon (effective_pen self) (effective_brush self)
                (map (QTransform.map t) (triangle_vertices x y w h))] self)
  /\
  (exists b1 b2 : QPointF,
      triangle_vertices x y w h = [mkPoint x y; b1; b2] /\
      mkPoint ((px b1 + px b2) / 2) ((py b1 + py b2) / 2) = mkPoint x (y - h)
      /\
      px b1 - x = w / 2 /\ x - px b2 = w / 2 /\
      py b1 = y - h /\ py b2 = y - h /\
      distance (mkPoint x y) b1 = distance (mkPoint x y) b2).
Proof.
  intros Ht. split.
  - now rewrite (triangle_paints self t x y w h Ht).
  - eexists. eexists. split; [reflexivity |]. cbn [px py].
    split; [f_equal; field |].
    repeat split; try ring.
    unfold distance. cbn [px py]. f_equal. ring.
Qed.

Lemma triangle_apex_at_anchor_witness :
  transform (__init__ 400 400) =
    Some (fit_transform 400 400 20 (mkRect (-10) (-10) 20 20)) /\
  triangle 0 0 2 1 (__init__ 400 400) =
    (Py.Ok tt,
     painted [drawPolygon (effective_pen (__init__ 400 400))
                (effective_brush (__init__ 400 400))
                (map (QTransform.map
                        (fit_transform 400 400 20 (mkRect (-10) (-10) 20 20)))
                   (triangle_vertices 0 0 2 1))] (__init__ 400 400)).
Proof.
  destruct init_400_400_transform as [Ht _].
  split; [exact Ht |].
  exact (proj1 (triangle_apex_at_anchor (__init__ 400 400) _ 0 0 2 1 Ht)).
Defined.

(** C7 as stated fails. On a 400 by 400 view [triangle(0, 0, 2, 1)] draws
    the polygon (200, 200), (220, 220), (180, 220): the anchor is a vertex,
    and none of the three points of the stated triangle (base from (-1, 0)
    to (1, 0), apex (0, -1), drawn at (180, 200), (220, 200), (200, 220))
    is. *)
Lemma triangle_not_as_stated :
  let self := __init__ 400 400 in
  let t := fit_transform 400 400 20 (mkRect (-10) (-10) 20 20) in
  let drawn := [mkPoint 200 200; mkPoint 220 220; mkPoint 180 220] in
  transform self = Some t /\
  triangle 0 0 2 1 self =
    (Py.Ok tt,
     painted [drawPolygon (effective_pen self) (effective_brush self) drawn]
       self) /\
  map (QTransform.map t) (triangle_as_stated 0 0 2 1) =
    [mkPoint 180 200; mkPoint 220 200; mkPoint 200 220] /\
  forall v : QPointF,
    In v (map (QTransform.map t) (triangle_as_stated 0 0 2 1)) ->
    ~ In v drawn.
Proof.
  cbv zeta. destruct init_400_400_transform as [Ht _].
  assert (Hst : map (QTransform.map
                       (fit_transform 400 400 20 (mkRect (-10) (-10) 20 20)))
                  (triangle_as_stated 0 0 2 1) =
                [mkPoint 180 200; mkPoint 220 200; mkPoint 200 220]).
  { unfold triangle_as_stated. cbn [map]. rewrite !init_400_400_map.
    repeat (f_equal; try field). }
  split; [exact Ht |]. split; [| split; [exact Hst |]].
  - rewrite (triangle_paints _ _ 0 0 2 1 Ht), !init_400_400_map.
    do 4 f_equal. repeat (f_equal; try field).
  - rewrite Hst. intros v Hv Hd. cbn in Hv, Hd.
    destruct Hv as [<- | [<- | [<- | []]]];
      destruct Hd as [E | [E | [E | []]]]; injection E; lra.
Qed.

(** ** [text] *)

Lemma text_paints (fm : QFont -> QFontMetrics) (self : DrawView)
    (t : QTransform) (s x y : R) (str : string) (n : R)
    (hor_align vert_align : string) :
  transform self = Some t -> scale self = Some s ->
  let f := mkFont (n * Rabs s) in
  let tw := IZR (horizontalAdvance (fm f) str) in
  let th := IZR (fm_height (fm f)) in
  let p := QTransform.map t (mkPoint x y) in
  text fm x y str n hor_align vert_align self =
    (Py.Ok tt,
     painted [drawText (text_pen self) f
                (mkPoint (px p + h_shift hor_align tw)
                         (py p + v_shift vert_align th)) str] self).
Proof.
  intros Ht Hs f tw th p. unfold text, transform_map. run.
  reads Hs. reads Ht. rewrite paint_painted. cbv beta iota zeta.
  unfold Py.abs. cbn [p_font setFont p_pen setPen]. fold f tw th p.
  do 3 f_equal. f_equal.
  unfold h_shift, v_shift.
  destruct (String.eqb hor_align "right"),
    (String.eqb hor_align "center"),
    (String.eqb vert_align "top"),
    (String.eqb vert_align "middle");
    destruct p as [a b]; cbn [px py]; f_equal; field.
Qed.

(** C8. [text] sets the pixel size of the font to [font_size * |scale|],
    measures the string in that font, maps the anchor, and draws the string
    with the text pen at the mapped anchor shifted horizontally by minus the
    width ("right"), minus half the width ("center") or nothing ("left"),
    and vertically by the height ("top"), half the height ("middle") or
    nothing ("bottom").  An anchor mapped to (200, 200) with width 40 and
    height 12 under "center" and "middle" is drawn at (180, 206). *)
Theorem text_anchor_shift (fm : QFont -> QFontMetrics) (self : DrawView)
    (t : QTransform) (s x y : R) (str : string) (n : R)
    (hor_align vert_align : string) :
  transform self = Some t -> scale self = Some s ->
  let f := mkFont (n * Rabs s) in
  let tw := IZR (horizontalAdvance (fm f) str) in
  let th := IZR (fm_height (fm f)) in
  let p := QTransform.map t (mkPoint x y) in
  text fm x y str n hor_align vert_align self =
    (Py.Ok tt,
     painted [drawText (text_pen self) f
                (mkPoint (px p + h_shift hor_align tw)
                         (py p + v_shift vert_align th)) str] self)
  /\
  (h_shift "right" tw = - tw /\ h_shift "center" tw = - (tw / 2) /\
   h_shift "left" tw = 0) /\
  (v_shift "top" th = th /\ v_shift "middle" th = th / 2 /\
   v_shift "bottom" th = 0) /\
  (p = mkPoint 200 200 -> tw = 40 -> th = 12 ->
   text fm x y str n "center" "middle" self =
     (Py.Ok tt,
      painted [drawText (text_pen self) f (mkPoint 180 206) str] self)).
Proof.
  intros Ht Hs f tw th p.
  split; [apply (text_paints fm self t s x y str n _ _ Ht Hs) |].
  split; [repeat split |]. split; [repeat split |].
  intros Hp Hw Hh.
  rewrite (text_paints fm self t s x y str n _ _ Ht Hs).
  fold f tw th p. rewrite Hp, Hw, Hh. cbn [px py].
  do 3 f_equal. f_equal. unfold h_shift, v_shift. cbn.
  f_equal; field.
Qed.

Lemma text_anchor_shift_witness :
  transform (__init__ 400 400) =
    Some (fit_transform 400 400 20 (mkRect (-10) (-10) 20 20)) /\
  scale (__init__ 400 400) = Some 20 /\
  QTransform.map (fit_transform 400 400 20 (mkRect (-10) (-10) 20 20))
    (mkPoint 0 0) = mkPoint 200 200 /\
  text metrics_40_by_12 0 0 "q" 12 "center" "middle" (__init__ 400 400) =
    (Py.Ok tt,
     painted [drawText (text_pen (__init__ 400 400)) (mkFont (12 * Rabs 20))
                (mkPoint 180 206) "q"] (__init__ 400 400)).
Proof.
  destruct init_400_400_transform as [Ht Hs].
  assert (Hp : QTransform.map
                 (fit_transform 400 400 20 (mkRect (-10) (-10) 20 20))
                 (mkPoint 0 0) = mkPoint 200 200).
  { rewrite init_400_400_map. f_equal; ring. }
  split; [exact Ht |]. split; [exact Hs |]. split; [exact Hp |].
  exact (proj2 (proj2 (proj2
    (text_anchor_shift metrics_40_by_12 (__init__ 400 400) _ 20 0 0 "q" 12
       "center" "middle" Ht Hs))) Hp eq_refl eq_refl).
Defined.

(** * Further properties of the view *)

(** ** The three ways [__update_transform] ends *)

Lemma update_transform_raises (self : DrawView) :
  width self <> 0%Z -> height self <> 0%Z ->
  rw (world_bounds self) = 0 \/ rh (world_bounds self) = 0 ->
  __update_transform self =
    (Py.Raise Py.ZeroDivisionError,
     with_transform QTransform.identity self).
Proof.
  intros Hw Hh H0. unfold __update_transform. run. cbn.
  destruct (Z.eqb_spec (width self) 0); [easy |].
  destruct (Z.eqb_spec (height self) 0); [easy |].
  cbn.
  destruct (Req_dec_T (rw (world_bounds self)) 0) as [E1 | N1];
    [reflexivity |].
  destruct (Req_dec_T (rh (world_bounds self)) 0) as [E2 | N2];
    [reflexivity |].
  destruct H0; contradiction.
Qed.

Lemma update_transform_ends (self : DrawView) : update_end self.
Proof.
  destruct (Z.eq_dec (width self) 0) as [Hw | Hw].
  { apply end_guard; [now left |].
    unfold __update_transform. run. now rewrite Hw. }
  destruct (Z.eq_dec (height self) 0) as [Hh | Hh].
  { apply end_guard; [now right |].
    unfold __update_transform. run. rewrite Hh. now rewrite orb_true_r. }
  destruct (Req_dec_T (rw (world_bounds self)) 0) as [E1 | N1].
  { apply end_raise; auto. apply update_transform_raises; auto. }
  destruct (Req_dec_T (rh (world_bounds self)) 0) as [E2 | N2].
  { apply end_raise; auto. apply update_transform_raises; auto. }
  apply end_recompute; auto.
  now apply update_transform_recomputes.
Qed.

(** An attribute that [transform] and [scale] do not enter is left alone
    by [__update_transform], however it ends. *)
Lemma update_transform_keeps {A} (f : DrawView -> A) (self : DrawView) :
  (forall t s, f (with_transform t s) = f s) ->
  (forall v s, f (with_scale v s) = f s) ->
  f (after __update_transform self) = f self.
Proof.
  intros Ht Hs. unfold after.
  destruct (update_transform_ends self) as [_ E | _ _ _ E | _ _ _ _ E];
    rewrite E; cbn [snd]; now rewrite ?Ht, ?Hs.
Qed.

(** ** What each call leaves alone *)

Lemma perform_keeps_geometry (fm : QFont -> QFontMetrics) (c : Call)
    (self : DrawView) :
  is_geometry_call c = false ->
  geometry (after (perform fm c) self) = geometry self.
Proof.
  intros Hc. destruct (is_primitive c) eqn:Hp.
  - now apply primitive_keeps.
  - destruct c; try discriminate; unfold perform, after; try reflexivity.
    + destruct b; reflexivity.
    + destruct b; reflexivity.
    + unfold_methods. run. destruct (__font_color self); reflexivity.
    + unfold_methods. run.
      destruct (Py.pop (__attribute_stack self))
        as [[[[[[[sc fc] sw] tc] s] f] rest] |]; [| reflexivity].
      destruct s, f; reflexivity.
Qed.

Lemma fit_scale_nonzero (vw vh : R) (wb : QRectF) :
  vw <> 0 -> vh <> 0 -> rw wb <> 0 -> rh wb <> 0 -> fit_scale vw vh wb <> 0.
Proof.
  intros Hw Hh Hww Hwh. unfold fit_scale, Py.min.
  assert (vw / rw wb <> 0).
  { unfold Rdiv. apply Rmult_integral_contrapositive_currified;
      [assumption | now apply Rinv_neq_0_compat]. }
  assert (vh / rh wb <> 0).
  { unfold Rdiv. apply Rmult_integral_contrapositive_currified;
      [assumption | now apply Rinv_neq_0_compat]. }
  destruct (Rlt_dec (vh / rh wb) (vw / rw wb)); assumption.
Qed.

Lemma identity_determinant : QTransform.determinant QTransform.identity = 1.
Proof. unfold QTransform.determinant, QTransform.identity. cbn. ring. Qed.

Lemma update_transform_invertible (self : DrawView) :
  transform_invertible self ->
  transform_invertible (after __update_transform self).
Proof.
  intros H t. unfold after.
  destruct (update_transform_ends self)
    as [_ E | _ _ _ E | Hw Hh Hww Hwh E]; rewrite E; cbn [snd].
  - apply H.
  - cbn. intros [= <-]. rewrite identity_determinant. lra.
  - cbn. intros [= <-]. rewrite fit_transform_determinant.
    pose proof (fit_scale_nonzero (IZR (width self)) (IZR (height self))
                  (world_bounds self)) as Hs.
    assert (IZR (width self) <> 0) by now apply not_0_IZR.
    assert (IZR (height self) <> 0) by now apply not_0_IZR.
    specialize (Hs ltac:(assumption) ltac:(assumption) Hww Hwh).
    nra.
Qed.

Lemma perform_transform_invertible (fm : QFont -> QFontMetrics) (c : Call)
    (self : DrawView) :
  transform_invertible self ->
  transform_invertible (after (perform fm c) self).
Proof.
  intros H. destruct (is_geometry_call c) eqn:Hg.
  - destruct c; try discriminate; unfold perform.
    + unfold resizeEvent, after. run.
      apply (update_transform_invertible
               (with_height h (with_width w self))), H.
    + unfold set_world_bounds, after. run.
      apply (update_transform_invertible
               (with_world_bounds (mkRect xmin ymin w h) self)), H.
  - pose proof (perform_keeps_geometry fm c self Hg) as E.
    unfold geometry in E. injection E as _ _ _ Et _.
    intros t. rewrite Et. apply H.
Qed.

Lemma reached_transform_invertible (fm : QFont -> QFontMetrics) (w h : Z)
    (cs : list Call) :
  transform_invertible (reached fm w h cs).
Proof.
  unfold reached.
  assert (H0 : transform_invertible (__init__ w h)).
  { apply update_transform_invertible. intros t. discriminate. }
  revert H0. generalize (__init__ w h).
  induction cs as [| c cs IH]; intros self H; [exact H |].
  cbn. apply IH. now apply perform_transform_invertible.
Qed.

(** ** Both directions of the mapping *)

Lemma round_trips (self : DrawView) (t : QTransform) (x y : R) :
  transform self = Some t -> QTransform.determinant t <> 0 ->
  (exists p : QPointF,
      world_to_window x y self = (Py.Ok p, self) /\
      window_to_world (px p) (py p) self = (Py.Ok (mkPoint x y), self)) /\
  (exists q : QPointF,
      window_to_world x y self = (Py.Ok q, self) /\
      world_to_window (px q) (py q) self = (Py.Ok (mkPoint x y), self)).
Proof.
  intros Ht Hd. split.
  - exists (QTransform.map t (mkPoint x y)). split.
    + unfold world_to_window. run. now rewrite Ht.
    + unfold window_to_world. run. rewrite Ht.
      now rewrite point_eta, inverted_map_map.
  - exists (QTransform.map (fst (QTransform.inverted t)) (mkPoint x y)).
    split.
    + unfold window_to_world. run. now rewrite Ht.
    + unfold world_to_window. run. rewrite Ht.
      now rewrite point_eta, map_inverted_map.
Qed.

(** X1. On every view reached from the constructor by any calls, whatever
    the sizes and world bounds given on the way (negative ones, or a
    recompute that ended in a division by zero, included): where the
    transform exists, [window_to_world] undoes [world_to_window] and
    [world_to_window] undoes [window_to_world]; where it does not, both
    raise [AttributeError] and leave the view as it was. *)
Theorem reached_round_trip (fm : QFont -> QFontMetrics) (w h : Z)
    (cs : list Call) (x y : R) :
  let self := reached fm w h cs in
  match transform self with
  | Some _ =>
      (exists p : QPointF,
          world_to_window x y self = (Py.Ok p, self) /\
          window_to_world (px p) (py p) self = (Py.Ok (mkPoint x y), self))
      /\
      (exists q : QPointF,
          window_to_world x y self = (Py.Ok q, self) /\
          world_to_window (px q) (py q) self = (Py.Ok (mkPoint x y), self))
  | None =>
      world_to_window x y self = (Py.Raise Py.AttributeError, self) /\
      window_to_world x y self = (Py.Raise Py.AttributeError, self)
  end.
Proof.
  intros self.
  pose proof (reached_transform_invertible fm w h cs) as Hinv.
  fold self in Hinv.
  destruct (transform self) as [t |] eqn:Ht.
  - apply (round_trips self t x y Ht). now apply Hinv.
  - unfold world_to_window, window_to_world. run. now rewrite Ht.
Qed.

(** ** The recomputed transform *)

Lemma fit_scale_bounds (vw vh : R) (wb : QRectF) :
  0 < vw -> 0 < vh -> 0 < rw wb -> 0 < rh wb ->
  let s := fit_scale vw vh wb in
  s * rw wb <= vw /\ s * rh wb <= vh /\ (s * rw wb = vw \/ s * rh wb = vh).
Proof.
  intros Hw Hh Hww Hwh s. unfold s, fit_scale, Py.min.
  assert (E1 : vw / rw wb * rw wb = vw) by (field; lra).
  assert (E2 : vh / rh wb * rh wb = vh) by (field; lra).
  destruct (Rlt_dec (vh / rh wb) (vw / rw wb)) as [L | L].
  - split; [| split; [lra | right; exact E2]].
    apply Rle_trans with (vw / rw wb * rw wb); [| lra].
    apply Rmult_le_compat_r; lra.
  - split; [lra | split; [| left; exact E1]].
    apply Rle_trans with (vh / rh wb * rh wb); [| lra].
    apply Rmult_le_compat_r; lra.
Qed.

(** X2. Scale to fit. After a recompute with strictly positive viewport
    and world dimensions, every point of the world rectangle is mapped into
    the viewport rectangle, and the world rectangle fills the viewport along
    at least one axis. *)
Theorem recompute_fits_world (self : DrawView) (x y : R) :
  (0 < width self)%Z -> (0 < height self)%Z ->
  0 < rw (world_bounds self) -> 0 < rh (world_bounds self) ->
  let wb := world_bounds self in
  let self' := after __update_transform self in
  rx wb <= x <= rx wb + rw wb -> ry wb <= y <= ry wb + rh wb ->
  exists (p : QPointF) (s : R),
    world_to_window x y self' = (Py.Ok p, self') /\
    0 <= px p <= IZR (width self) /\ 0 <= py p <= IZR (height self) /\
    scale self' = Some s /\
    (s * rw wb = IZR (width self) \/ s * rh wb = IZR (height self)).
Proof.
  intros Hw Hh Hww Hwh wb self' Hx Hy. subst wb.
  set (wb := world_bounds self) in *.
  assert (Hvw : 0 < IZR (width self)) by now apply (IZR_lt 0).
  assert (Hvh : 0 < IZR (height self)) by now apply (IZR_lt 0).
  pose proof (fit_scale_pos _ _ _ Hvw Hvh Hww Hwh) as Hs.
  destruct (fit_scale_bounds _ _ _ Hvw Hvh Hww Hwh) as (B1 & B2 & B3).
  assert (E : self' =
              with_transform
                (fit_transform (IZR (width self)) (IZR (height self))
                   (fit_scale (IZR (width self)) (IZR (height self)) wb) wb)
                (with_scale
                   (fit_scale (IZR (width self)) (IZR (height self)) wb)
                   self)).
  { unfold self', after.
    rewrite update_transform_recomputes; try lia; fold wb; try lra.
    reflexivity. }
  set (s := fit_scale (IZR (width self)) (IZR (height self)) wb) in *.
  eexists. exists s. rewrite E.
  split; [unfold world_to_window; run; cbn; rewrite fit_transform_map;
          reflexivity |].
  cbn [px py center].
  assert (0 <= s * (x - rx wb)) by (apply Rmult_le_pos; lra).
  assert (0 <= s * (rx wb + rw wb - x)) by (apply Rmult_le_pos; lra).
  assert (0 <= s * (y - ry wb)) by (apply Rmult_le_pos; lra).
  assert (0 <= s * (ry wb + rh wb - y)) by (apply Rmult_le_pos; lra).
  split; [| split; [| split; [reflexivity | exact B3]]].
  - split; lra.
  - split; lra.
Qed.

Lemma recompute_fits_world_witness :
  (0 < width (fresh 400 300))%Z /\ (0 < height (fresh 400 300))%Z /\
  0 < rw (world_bounds (fresh 400 300)) /\
  0 < rh (world_bounds (fresh 400 300)) /\
  exists (p : QPointF) (s : R),
    world_to_window 10 (-10) (after __update_transform (fresh 400 300)) =
      (Py.Ok p, after __update_transform (fresh 400 300)) /\
    0 <= px p <= IZR (width (fresh 400 300)) /\
    0 <= py p <= IZR (height (fresh 400 300)) /\
    scale (after __update_transform (fresh 400 300)) = Some s /\
    (s * rw (world_bounds (fresh 400 300)) = IZR (width (fresh 400 300)) \/
     s * rh (world_bounds (fresh 400 300)) = IZR (height (fresh 400 300))).
Proof.
  assert (H1 : (0 < width (fresh 400 300))%Z) by (cbn; lia).
  assert (H2 : (0 < height (fresh 400 300))%Z) by (cbn; lia).
  assert (H3 : 0 < rw (world_bounds (fresh 400 300))) by (cbn; lra).
  assert (H4 : 0 < rh (world_bounds (fresh 400 300))) by (cbn; lra).
  repeat split; try assumption.
  apply (recompute_fits_world (fresh 400 300) 10 (-10) H1 H2 H3 H4);
    cbn; lra.
Defined.

Lemma after_recompute (self : DrawView) :
  width self <> 0%Z -> height self <> 0%Z ->
  rw (world_bounds self) <> 0 -> rh (world_bounds self) <> 0 ->
  after __update_transform self =
    with_transform
      (fit_transform (IZR (width self)) (IZR (height self))
         (fit_scale (IZR (width self)) (IZR (height self))
            (world_bounds self))
         (world_bounds self))
      (with_scale
         (fit_scale (IZR (width self)) (IZR (height self))
            (world_bounds self))
         self).
Proof.
  intros. unfold after. now rewrite update_transform_recomputes.
Qed.

Lemma distance_scaled (s ax ay bx by' : R) :
  sqrt ((s * bx - s * ax) ^ 2 + (- s * by' - - s * ay) ^ 2) =
  Rabs s * sqrt ((bx - ax) ^ 2 + (by' - ay) ^ 2).
Proof.
  replace ((s * bx - s * ax) ^ 2 + (- s * by' - - s * ay) ^ 2)
    with (Rsqr s * ((bx - ax) ^ 2 + (by' - ay) ^ 2))
    by (unfold Rsqr; ring).
  rewrite sqrt_mult; [| apply Rle_0_sqr | apply sum_squares_nonneg].
  now rewrite sqrt_Rsqr_abs.
Qed.

(** X3. One scale for both axes, vertical axis turned over. After a
    recompute that got past the guard and the two divisions (width, height
    and world dimensions not zero), the window images of two world points
    differ by [scale] times the world difference horizontally and by minus
    [scale] times the world difference vertically, so their distance is
    [|scale|] times the world distance. *)
Theorem recompute_uniform_scale (self : DrawView) (x1 y1 x2 y2 : R) :
  width self <> 0%Z -> height self <> 0%Z ->
  rw (world_bounds self) <> 0 -> rh (world_bounds self) <> 0 ->
  let self' := after __update_transform self in
  exists (s : R) (p1 p2 : QPointF),
    scale self' = Some s /\ s <> 0 /\
    world_to_window x1 y1 self' = (Py.Ok p1, self') /\
    world_to_window x2 y2 self' = (Py.Ok p2, self') /\
    px p2 - px p1 = s * (x2 - x1) /\
    py p2 - py p1 = - (s * (y2 - y1)) /\
    distance p1 p2 = Rabs s * distance (mkPoint x1 y1) (mkPoint x2 y2).
Proof.
  intros Hw Hh Hww Hwh self'.
  unfold self'. rewrite (after_recompute self Hw Hh Hww Hwh).
  set (s := fit_scale (IZR (width self)) (IZR (height self))
              (world_bounds self)).
  exists s. eexists. eexists.
  split; [reflexivity |].
  split; [apply fit_scale_nonzero; try assumption; now apply not_0_IZR |].
  split; [unfold world_to_window; run; cbn; rewrite fit_transform_map;
          reflexivity |].
  split; [unfold world_to_window; run; cbn; rewrite fit_transform_map;
          reflexivity |].
  cbn [px py]. split; [ring |]. split; [ring |].
  unfold distance. cbn [px py].
  rewrite <- distance_scaled. f_equal. ring.
Qed.

Lemma recompute_uniform_scale_witness :
  width (fresh 400 300) <> 0%Z /\ height (fresh 400 300) <> 0%Z /\
  rw (world_bounds (fresh 400 300)) <> 0 /\
  rh (world_bounds (fresh 400 300)) <> 0 /\
  exists (s : R) (p1 p2 : QPointF),
    scale (after __update_transform (fresh 400 300)) = Some s /\ s <> 0 /\
    world_to_window 0 0 (after __update_transform (fresh 400 300)) =
      (Py.Ok p1, after __update_transform (fresh 400 300)) /\
    world_to_window 3 4 (after __update_transform (fresh 400 300)) =
      (Py.Ok p2, after __update_transform (fresh 400 300)) /\
    px p2 - px p1 = s * (3 - 0) /\
    py p2 - py p1 = - (s * (4 - 0)) /\
    distance p1 p2 = Rabs s * distance (mkPoint 0 0) (mkPoint 3 4).
Proof.
  assert (H1 : width (fresh 400 300) <> 0%Z) by (cbn; lia).
  assert (H2 : height (fresh 400 300) <> 0%Z) by (cbn; lia).
  assert (H3 : rw (world_bounds (fresh 400 300)) <> 0) by (cbn; lra).
  assert (H4 : rh (world_bounds (fresh 400 300)) <> 0) by (cbn; lra).
  repeat split; try assumption.
  exact (recompute_uniform_scale (fresh 400 300) 0 0 3 4 H1 H2 H3 H4).
Defined.

(** X4. [rect(x, y, w, h)] after a recompute with non-zero sizes hands
    [drawRect] the rectangle whose corner is the image of [(x, y)], whose
    width is [scale * w] and whose height is [-(scale * h)]: with a positive
    scale and a positive [h] the height is negative (the rectangle is not
    normalised). *)
Theorem rect_turned_over (self : DrawView) (x y w h : R) :
  width self <> 0%Z -> height self <> 0%Z ->
  rw (world_bounds self) <> 0 -> rh (world_bounds self) <> 0 ->
  let self' := after __update_transform self in
  exists (s : R) (p : QPointF) (r : QRectF),
    scale self' = Some s /\
    world_to_window x y self' = (Py.Ok p, self') /\
    rect x y w h self' =
      (Py.Ok tt,
       painted [drawRect (effective_pen self') (effective_brush self') r]
         self') /\
    r = mkRect (px p) (py p) (s * w) (- (s * h)) /\
    (0 < s -> 0 < h -> rh r < 0).
Proof.
  intros Hw Hh Hww Hwh self'.
  unfold self'. rewrite (after_recompute self Hw Hh Hww Hwh).
  set (s := fit_scale (IZR (width self)) (IZR (height self))
              (world_bounds self)).
  set (t := fit_transform (IZR (width self)) (IZR (height self)) s
              (world_bounds self)).
  set (v := with_transform t (with_scale s self)).
  assert (Ht : transform v = Some t) by reflexivity.
  exists s. eexists. eexists.
  split; [reflexivity |].
  split; [unfold world_to_window; run; rewrite Ht; reflexivity |].
  split; [apply (rect_paints v t x y w h Ht) |].
  split.
  - unfold rect_of_corners, t. rewrite !fit_transform_map. cbn [px py].
    f_equal; ring.
  - intros Hs Hh0. unfold rect_of_corners, t.
    rewrite !fit_transform_map. cbn [px py rh]. nra.
Qed.

Lemma rect_turned_over_witness :
  width (fresh 400 300) <> 0%Z /\ height (fresh 400 300) <> 0%Z /\
  rw (world_bounds (fresh 400 300)) <> 0 /\
  rh (world_bounds (fresh 400 300)) <> 0 /\
  exists (s : R) (p : QPointF) (r : QRectF),
    scale (after __update_transform (fresh 400 300)) = Some s /\
    world_to_window 1 2 (after __update_transform (fresh 400 300)) =
      (Py.Ok p, after __update_transform (fresh 400 300)) /\
    rect 1 2 3 4 (after __update_transform (fresh 400 300)) =
      (Py.Ok tt,
       painted [drawRect
                  (effective_pen (after __update_transform (fresh 400 300)))
                  (effective_brush (after __update_transform (fresh 400 300)))
                  r]
         (after __update_transform (fresh 400 300))) /\
    r = mkRect (px p) (py p) (s * 3) (- (s * 4)) /\
    (0 < s -> 0 < 4 -> rh r < 0).
Proof.
  assert (H1 : width (fresh 400 300) <> 0%Z) by (cbn; lia).
  assert (H2 : height (fresh 400 300) <> 0%Z) by (cbn; lia).
  assert (H3 : rw (world_bounds (fresh 400 300)) <> 0) by (cbn; lra).
  assert (H4 : rh (world_bounds (fresh 400 300)) <> 0) by (cbn; lra).
  repeat split; try assumption.
  exact (rect_turned_over (fresh 400 300) 1 2 3 4 H1 H2 H3 H4).
Defined.

Lemma identity_map (p : QPointF) : QTransform.map QTransform.identity p = p.
Proof.
  destruct p as [a b]. unfold QTransform.map, QTransform.identity. cbn.
  f_equal; ring.
Qed.

Lemma update_transform_zero_guard (self : DrawView) :
  (width self = 0 \/ height self = 0)%Z ->
  __update_transform self = (Py.Ok tt, self).
Proof.
  intros Hz.
  destruct (update_transform_ends self) as [_ E | Hw Hh _ _ | Hw Hh _ _ _];
    [exact E | |]; destruct Hz; contradiction.
Qed.

(** X5. World bounds of zero width or height on a widget of non-zero size:
    [set_world_bounds] stores the bounds and raises [ZeroDivisionError],
    after the transform has been reset to the identity and before the scale
    is assigned.  The view is left with the new bounds, the identity
    transform (world coordinates are taken as window coordinates) and the
    scale it had before; the style is untouched. *)
Theorem set_world_bounds_zero_dimension (self : DrawView)
    (xmin ymin w h : R) :
  width self <> 0%Z -> height self <> 0%Z -> w = 0 \/ h = 0 ->
  let self' := after (set_world_bounds xmin ymin w h) self in
  outcome (set_world_bounds xmin ymin w h) self =
    Py.Raise Py.ZeroDivisionError /\
  world_bounds self' = mkRect xmin ymin w h /\
  transform self' = Some QTransform.identity /\
  scale self' = scale self /\
  style_state self' = style_state self /\
  (forall x y : R,
      world_to_window x y self' = (Py.Ok (mkPoint x y), self') /\
      window_to_world x y self' = (Py.Ok (mkPoint x y), self')).
Proof.
  intros Hw Hh H0 self'.
  assert (E : set_world_bounds xmin ymin w h self =
              (Py.Raise Py.ZeroDivisionError,
               with_transform QTransform.identity
                 (with_world_bounds (mkRect xmin ymin w h) self))).
  { unfold set_world_bounds. run.
    now apply (update_transform_raises
                 (with_world_bounds (mkRect xmin ymin w h) self)). }
  unfold self', outcome, after. rewrite E. cbn [fst snd].
  repeat split.
  - unfold world_to_window. run. cbn. now rewrite identity_map.
  - unfold window_to_world. run. cbn.
    pose proof (inverted_map_map QTransform.identity (mkPoint x y)) as Hi.
    rewrite identity_map in Hi. rewrite Hi; [reflexivity |].
    rewrite identity_determinant. lra.
Qed.

Lemma set_world_bounds_zero_dimension_witness :
  width (__init__ 400 400) <> 0%Z /\ height (__init__ 400 400) <> 0%Z /\
  (0 = 0 \/ 5 = 0) /\
  outcome (set_world_bounds 1 2 0 5) (__init__ 400 400) =
    Py.Raise Py.ZeroDivisionError /\
  transform (after (set_world_bounds 1 2 0 5) (__init__ 400 400)) =
    Some QTransform.identity /\
  scale (after (set_world_bounds 1 2 0 5) (__init__ 400 400)) =
    scale (__init__ 400 400).
Proof.
  assert (H1 : width (__init__ 400 400) <> 0%Z)
    by (rewrite init_400_400; cbn; lia).
  assert (H2 : height (__init__ 400 400) <> 0%Z)
    by (rewrite init_400_400; cbn; lia).
  assert (H3 : 0 = 0 \/ 5 = 0) by (left; reflexivity).
  destruct (set_world_bounds_zero_dimension (__init__ 400 400) 1 2 0 5
              H1 H2 H3) as (Ho & _ & Ht & Hs & _).
  repeat split; assumption.
Defined.

(** X6. Recomputing twice is recomputing once: a second
    [__update_transform] ends the way the first did and leaves the view the
    first one left, whether the first returned at the guard, raised
    [ZeroDivisionError] or recomputed. *)
Theorem update_transform_idempotent (self : DrawView) :
  __update_transform (after __update_transform self) =
    (outcome __update_transform self, after __update_transform self).
Proof.
  unfold outcome, after.
  destruct (update_transform_ends self)
    as [Hg E | Hw Hh H0 E | Hw Hh Hww Hwh E]; rewrite E; cbn [fst snd].
  - exact E.
  - now rewrite (update_transform_raises
                   (with_transform QTransform.identity self)).
  - now rewrite update_transform_recomputes.
Qed.

(** X7. World bounds given while the widget has zero width or height are
    stored, but the transform and scale stay as they were (computed for the
    old bounds, or missing); the next resize to a non-zero size computes the
    transform for the stored bounds. *)
Theorem set_world_bounds_on_empty_widget (self : DrawView)
    (xmin ymin w h : R) (w2 h2 : Z) :
  (width self = 0 \/ height self = 0)%Z ->
  w <> 0 -> h <> 0 -> w2 <> 0%Z -> h2 <> 0%Z ->
  let b := mkRect xmin ymin w h in
  let self1 := after (set_world_bounds xmin ymin w h) self in
  let self2 := after (resizeEvent w2 h2) self1 in
  set_world_bounds xmin ymin w h self = (Py.Ok tt, self1) /\
  world_bounds self1 = b /\
  transform self1 = transform self /\ scale self1 = scale self /\
  outcome (resizeEvent w2 h2) self1 = Py.Ok tt /\
  scale self2 = Some (fit_scale (IZR w2) (IZR h2) b) /\
  transform self2 =
    Some (fit_transform (IZR w2) (IZR h2) (fit_scale (IZR w2) (IZR h2) b) b).
Proof.
  intros Hz Hw Hh Hw2 Hh2 b self1 self2.
  assert (E1 : set_world_bounds xmin ymin w h self =
               (Py.Ok tt, with_world_bounds b self)).
  { unfold set_world_bounds. run.
    now apply (update_transform_zero_guard (with_world_bounds b self)). }
  assert (S1 : self1 = with_world_bounds b self)
    by (unfold self1, after; now rewrite E1).
  assert (E2 : resizeEvent w2 h2 self1 =
               (Py.Ok tt,
                with_transform
                  (fit_transform (IZR w2) (IZR h2)
                     (fit_scale (IZR w2) (IZR h2) b) b)
                  (with_scale (fit_scale (IZR w2) (IZR h2) b)
                     (with_height h2 (with_width w2 self1))))).
  { unfold resizeEvent. run. rewrite S1.
    now rewrite (update_transform_recomputes
                   (with_height h2
                      (with_width w2 (with_world_bounds b self)))). }
  unfold self2, outcome, after. rewrite E2. cbn [fst snd].
  rewrite <- S1 in E1. rewrite S1.
  repeat split; try reflexivity. now rewrite <- S1.
Qed.

Lemma set_world_bounds_on_empty_widget_witness :
  (width (fresh 0 0) = 0 \/ height (fresh 0 0) = 0)%Z /\
  20 <> 0 /\ 10 <> 0 /\ 400%Z <> 0%Z /\ 300%Z <> 0%Z /\
  transform (after (set_world_bounds 0 0 20 10) (fresh 0 0)) = None /\
  transform (after (resizeEvent 400 300)
               (after (set_world_bounds 0 0 20 10) (fresh 0 0))) =
    Some (fit_transform 400 300 (fit_scale 400 300 (mkRect 0 0 20 10))
            (mkRect 0 0 20 10)).
Proof.
  assert (H1 : (width (fresh 0 0) = 0 \/ height (fresh 0 0) = 0)%Z)
    by (left; reflexivity).
  assert (H2 : 20 <> 0) by lra.
  assert (H3 : 10 <> 0) by lra.
  assert (H4 : 400%Z <> 0%Z) by lia.
  assert (H5 : 300%Z <> 0%Z) by lia.
  destruct (set_world_bounds_on_empty_widget (fresh 0 0) 0 0 20 10 400 300
              H1 H2 H3 H4 H5) as (_ & _ & Ht & _ & _ & _ & Ht2).
  repeat split; assumption.
Defined.

(** ** Primitives on a view without transform or scale *)

Lemma painted_nil (self : DrawView) : painted [] self = self.
Proof.
  destruct self. unfold painted. cbn. now rewrite app_nil_r.
Qed.

Lemma arrow_without_scale (self : DrawView) (t : QTransform)
    (x1 y1 x2 y2 n : R) (arrow_start arrow_end : bool) :
  transform self = Some t -> scale self = None ->
  distance (QTransform.map t (mkPoint x1 y1))
           (QTransform.map t (mkPoint x2 y2)) <> 0 ->
  arrow x1 y1 x2 y2 n arrow_start arrow_end self =
    (Py.Raise Py.AttributeError,
     painted [drawLine (QPen_color black)
                (QTransform.map t (mkPoint x1 y1))
                (QTransform.map t (mkPoint x2 y2))] self).
Proof.
  intros Ht Hs Hd. unfold arrow, transform_map. run. reads Ht.
  rewrite paint_painted. cbv beta iota zeta.
  unfold Py.pow_half.
  fold (distance (QTransform.map t (mkPoint x1 y1))
          (QTransform.map t (mkPoint x2 y2))).
  destruct (Req_dec_T _ 0) as [E | _]; [now elim Hd |].
  cbv beta iota zeta.
  change (scale (painted [drawLine (p_pen QPainter_on_widget)
                            (QTransform.map t (mkPoint x1 y1))
                            (QTransform.map t (mkPoint x2 y2))] self))
    with (scale self).
  now rewrite Hs.
Qed.

(** X8. On a view that has no transform and no scale (one constructed
    while the widget had zero width or height, and not resized since),
    [line], [rect], [circle], [triangle], [arrow], [text] and [polygon] of
    at least one point raise [AttributeError] and paint nothing; [polygon]
    of no points does not read the transform and paints an empty polygon. *)
Theorem primitives_without_transform (fm : QFont -> QFontMetrics)
    (self : DrawView) :
  transform self = None -> scale self = None ->
  (forall x1 y1 x2 y2,
      line x1 y1 x2 y2 self = (Py.Raise Py.AttributeError, self)) /\
  (forall x y w h, rect x y w h self = (Py.Raise Py.AttributeError, self)) /\
  (forall x y r, circle x y r self = (Py.Raise Py.AttributeError, self)) /\
  (forall x y w h,
      triangle x y w h self = (Py.Raise Py.AttributeError, self)) /\
  (forall x1 y1 x2 y2 n s e,
      arrow x1 y1 x2 y2 n s e self = (Py.Raise Py.AttributeError, self)) /\
  (forall x y str n ha va,
      text fm x y str n ha va self = (Py.Raise Py.AttributeError, self)) /\
  (forall p ps,
      polygon (p :: ps) self = (Py.Raise Py.AttributeError, self)) /\
  polygon [] self =
    (Py.Ok tt,
     painted [drawPolygon (effective_pen self) (effective_brush self) []]
       self).
Proof.
  intros Ht Hs.
  repeat split; intros; unfold_methods; run; rewrite ?Hs, ?Ht;
    try reflexivity.
  cbn [Py.comprehension]. run. now rewrite Ht.
Qed.

Lemma primitives_without_transform_witness :
  transform (__init__ 0 300) = None /\ scale (__init__ 0 300) = None /\
  line 0 0 1 1 (__init__ 0 300) =
    (Py.Raise Py.AttributeError, __init__ 0 300) /\
  polygon [] (__init__ 0 300) =
    (Py.Ok tt,
     painted [drawPolygon (effective_pen (__init__ 0 300))
                (effective_brush (__init__ 0 300)) []] (__init__ 0 300)).
Proof.
  assert (E : __init__ 0 300 = fresh 0 300).
  { unfold __init__. rewrite update_transform_zero_guard; [reflexivity |].
    left; reflexivity. }
  assert (Ht : transform (__init__ 0 300) = None) by now rewrite E.
  assert (Hs : scale (__init__ 0 300) = None) by now rewrite E.
  destruct (primitives_without_transform metrics_40_by_12 (__init__ 0 300)
              Ht Hs) as (Hl & _ & _ & _ & _ & _ & _ & Hp).
  split; [exact Ht |]. split; [exact Hs |].
  split; [apply Hl | exact Hp].
Defined.

Lemma view_cut_short_attrs :
  transform view_cut_short = Some QTransform.identity /\
  scale view_cut_short = None.
Proof.
  unfold view_cut_short, reached.
  assert (E0 : __init__ 0 0 = fresh 0 0).
  { unfold __init__. rewrite update_transform_zero_guard; [reflexivity |].
    left; reflexivity. }
  rewrite E0. cbn [after_calls fold_left perform].
  assert (E1 : after (set_world_bounds 0 0 0 1) (fresh 0 0) =
               with_world_bounds (mkRect 0 0 0 1) (fresh 0 0)).
  { unfold after, set_world_bounds. run.
    rewrite (update_transform_zero_guard
               (with_world_bounds (mkRect 0 0 0 1) (fresh 0 0)));
      [reflexivity | left; reflexivity]. }
  rewrite E1.
  assert (E2 : after (resizeEvent 400 400)
                 (with_world_bounds (mkRect 0 0 0 1) (fresh 0 0)) =
               with_transform QTransform.identity
                 (with_height 400 (with_width 400
                    (with_world_bounds (mkRect 0 0 0 1) (fresh 0 0))))).
  { unfold after, resizeEvent. run.
    rewrite (update_transform_raises
               (with_height 400 (with_width 400
                  (with_world_bounds (mkRect 0 0 0 1) (fresh 0 0)))));
      [reflexivity | cbn; lia | cbn; lia | left; reflexivity]. }
  rewrite E2. split; reflexivity.
Qed.

(** X9. [arrow] paints its shaft before it reads the scale. On a view that
    has a transform but no scale (a first recompute cut short by a division
    by zero leaves one), an arrow between points with distinct images paints
    the shaft and then raises [AttributeError]; [circle], which reads the
    scale before it paints, raises and paints nothing. *)
Theorem arrow_paints_before_scale (self : DrawView) (t : QTransform)
    (x1 y1 x2 y2 n : R) (arrow_start arrow_end : bool) :
  transform self = Some t -> scale self = None ->
  QTransform.map t (mkPoint x1 y1) <> QTransform.map t (mkPoint x2 y2) ->
  arrow x1 y1 x2 y2 n arrow_start arrow_end self =
    (Py.Raise Py.AttributeError,
     painted [drawLine (QPen_color black)
                (QTransform.map t (mkPoint x1 y1))
                (QTransform.map t (mkPoint x2 y2))] self) /\
  (forall x y r, circle x y r self = (Py.Raise Py.AttributeError, self)).
Proof.
  intros Ht Hs Hne. split.
  - apply arrow_without_scale; try assumption.
    intros E. now apply distance_zero in E.
  - intros x y r. unfold_methods. run. reads Ht. now rewrite Hs.
Qed.

Lemma arrow_paints_before_scale_witness :
  transform view_cut_short = Some QTransform.identity /\
  scale view_cut_short = None /\
  QTransform.map QTransform.identity (mkPoint 0 0) <>
    QTransform.map QTransform.identity (mkPoint 1 0) /\
  arrow 0 0 1 0 5 true true view_cut_short =
    (Py.Raise Py.AttributeError,
     painted [drawLine (QPen_color black)
                (QTransform.map QTransform.identity (mkPoint 0 0))
                (QTransform.map QTransform.identity (mkPoint 1 0))]
       view_cut_short).
Proof.
  destruct view_cut_short_attrs as [Ht Hs].
  assert (Hne : QTransform.map QTransform.identity (mkPoint 0 0) <>
                QTransform.map QTransform.identity (mkPoint 1 0)).
  { rewrite !identity_map. intros [= E]. lra. }
  split; [exact Ht |]. split; [exact Hs |]. split; [exact Hne |].
  exact (proj1 (arrow_paints_before_scale view_cut_short _ 0 0 1 0 5
                  true true Ht Hs Hne)).
Defined.

(** ** What a primitive changes *)

Ltac raises_unpainted H :=
  exists []; rewrite painted_nil; unfold_methods; run; reads H; reflexivity.

Lemma primitive_appends (fm : QFont -> QFontMetrics) (c : Call)
    (self : DrawView) :
  is_primitive c = true ->
  exists cmds : list DrawCmd, after (perform fm c) self = painted cmds self.
Proof.
  destruct c; try discriminate; intros _; unfold after, perform.
  - (* polygon *)
    destruct points as [| p ps]; [eexists; reflexivity |].
    destruct (transform self) as [t |] eqn:Ht.
    + eexists. now rewrite (polygon_paints self t (p :: ps) Ht).
    + exists []. rewrite painted_nil.
      unfold polygon, painter, current_pen, current_brush, paint.
      unfold Py.bind at 1. run. unfold Py.bind.
      cbn [Py.comprehension]. unfold transform_map. run. now rewrite Ht.
  - (* line *)
    destruct (transform self) as [t |] eqn:Ht; [| raises_unpainted Ht].
    eexists. now rewrite (line_paints self t x1 y1 x2 y2 Ht).
  - (* arrow *)
    destruct (transform self) as [t |] eqn:Ht; [| raises_unpainted Ht].
    destruct (Req_dec_T (distance (QTransform.map t (mkPoint x1 y1))
                           (QTransform.map t (mkPoint x2 y2))) 0)
      as [Hd | Hd].
    { eexists. now rewrite (arrow_degenerate self t x1 y1 x2 y2 arrow_size
                              arrow_start arrow_end Ht Hd). }
    destruct (scale self) as [s |] eqn:Hs.
    + eexists. now rewrite (arrow_heads self t s x1 y1 x2 y2 arrow_size
                              arrow_start arrow_end Ht Hs Hd).
    + eexists. now rewrite (arrow_without_scale self t x1 y1 x2 y2
                              arrow_size arrow_start arrow_end Ht Hs Hd).
  - (* rect *)
    destruct (transform self) as [t |] eqn:Ht; [| raises_unpainted Ht].
    eexists. now rewrite (rect_paints self t x y w h Ht).
  - (* circle *)
    destruct (transform self) as [t |] eqn:Ht; [| raises_unpainted Ht].
    destruct (scale self) as [s |] eqn:Hs.
    + eexists. now rewrite (circle_paints self t s x y r Ht Hs).
    + exists []. rewrite painted_nil. unfold_methods. run. reads Ht.
      now rewrite Hs.
  - (* triangle *)
    destruct (transform self) as [t |] eqn:Ht; [| raises_unpainted Ht].
    eexists. now rewrite (triangle_paints self t x y w h Ht).
  - (* text *)
    destruct (scale self) as [k |] eqn:Hs; [| raises_unpainted Hs].
    destruct (transform self) as [t |] eqn:Ht.
    + eexists. now rewrite (text_paints fm self t k x y s font_size
                              hor_align vert_align Ht Hs).
    + exists []. rewrite painted_nil. unfold_methods. run. reads Hs.
      now rewrite Ht.
Qed.

(** X10. A primitive ([polygon], [line], [arrow], [rect], [circle],
    [triangle], [text]) only ever appends draw commands to the surface,
    whether it returns or raises: the commands already issued stay, and the
    transform, scale, world bounds, style attributes, pens, brushes and the
    attribute stack are as before the call. *)
Theorem primitive_only_paints (fm : QFont -> QFontMetrics) (c : Call)
    (self : DrawView) :
  is_primitive c = true ->
  let self' := after (perform fm c) self in
  exists cmds : list DrawCmd,
    self' = painted cmds self /\
    surface self' = surface self ++ cmds /\
    geometry self' = geometry self /\
    style_state self' = style_state self /\
    __attribute_stack self' = __attribute_stack self /\
    (stroke_pen self', fill_brush self', text_pen self',
     __current_pen self', __current_brush self') =
    (stroke_pen self, fill_brush self, text_pen self,
     __current_pen self, __current_brush self).
Proof.
  intros Hp self'.
  destruct (primitive_appends fm c self Hp) as [cmds E].
  exists cmds. unfold self'. rewrite E. repeat split.
Qed.

Lemma primitive_only_paints_witness :
  is_primitive (Arrow 0 0 1 0 5 true true) = true /\
  exists cmds : list DrawCmd,
    after (perform metrics_40_by_12 (Arrow 0 0 1 0 5 true true))
      view_cut_short = painted cmds view_cut_short.
Proof.
  split; [reflexivity |].
  destruct (primitive_only_paints metrics_40_by_12
              (Arrow 0 0 1 0 5 true true) view_cut_short eq_refl)
    as (cmds & E & _).
  exists cmds. exact E.
Defined.

(** ** The size of an arrowhead *)

Lemma head_point_distance (tip : QPointF) (vx vy k side : R) :
  vx ^ 2 + vy ^ 2 = 1 ->
  distance tip (head_point tip vx vy k side) ^ 2 = k ^ 2 + side ^ 2.
Proof.
  intros Hu. unfold distance, head_point. cbn [px py].
  rewrite pow2_sqrt by apply sum_squares_nonneg.
  replace ((px tip + k * vx + side * vy - px tip) ^ 2 +
           (py tip + k * vy - side * vx - py tip) ^ 2)
    with ((k ^ 2 + side ^ 2) * (vx ^ 2 + vy ^ 2)) by ring.
  rewrite Hu. ring.
Qed.

(** X11. Every arrowhead stroke has the same length, whatever the
    direction and the length of the shaft: its square is 5/4 of the square
    of [arrow_size * |scale|].  The head is not shortened for a short shaft.
    There are two strokes for each requested end. *)
Theorem arrow_head_strokes_length (self : DrawView) (t : QTransform)
    (s x1 y1 x2 y2 n : R) (arrow_start arrow_end : bool) :
  transform self = Some t -> scale self = Some s ->
  QTransform.map t (mkPoint x1 y1) <> QTransform.map t (mkPoint x2 y2) ->
  exists (shaft : DrawCmd) (heads : list DrawCmd),
    arrow x1 y1 x2 y2 n arrow_start arrow_end self =
      (Py.Ok tt, painted (shaft :: heads) self) /\
    List.length heads =
      ((if arrow_end then 2 else 0) + (if arrow_start then 2 else 0))%nat /\
    Forall (fun c => stroke_length_sq c = Some (5 / 4 * (n * Rabs s) ^ 2))
      heads.
Proof.
  intros Ht Hs Hne.
  set (p1 := QTransform.map t (mkPoint x1 y1)) in *.
  set (p2 := QTransform.map t (mkPoint x2 y2)) in *.
  assert (Hd : distance p1 p2 <> 0)
    by (intros E; now apply distance_zero in E).
  pose proof (unit_direction p1 p2 Hd) as Hu.
  set (ux := (px p2 - px p1) / distance p1 p2) in *.
  set (uy := (py p2 - py p1) / distance p1 p2) in *.
  assert (Hu' : (- ux) ^ 2 + (- uy) ^ 2 = 1)
    by (rewrite <- Hu; ring).
  eexists. eexists. split.
  - apply (arrow_heads self t s x1 y1 x2 y2 n arrow_start arrow_end Ht Hs Hd).
  - fold p1 p2 ux uy. split; [destruct arrow_end, arrow_start; reflexivity |].
    set (k := n * Rabs s).
    assert (L : forall tip vx vy side,
               vx ^ 2 + vy ^ 2 = 1 -> side ^ 2 = (k / 2) ^ 2 ->
               stroke_length_sq
                 (drawLine (QPen_color black) tip
                    (head_point tip vx vy k side)) =
               Some (5 / 4 * k ^ 2)).
    { intros tip vx vy side Hv Hside. cbn [stroke_length_sq].
      rewrite head_point_distance by exact Hv. rewrite Hside.
      f_equal. field. }
    unfold head_strokes.
    destruct arrow_end, arrow_start; cbn [app];
      repeat (constructor; [apply L; [assumption | ring] |]);
      constructor.
Qed.

Lemma arrow_head_strokes_length_witness :
  transform (__init__ 400 400) =
    Some (fit_transform 400 400 20 (mkRect (-10) (-10) 20 20)) /\
  scale (__init__ 400 400) = Some 20 /\
  exists (shaft : DrawCmd) (heads : list DrawCmd),
    arrow 0 0 1 0 5 true true (__init__ 400 400) =
      (Py.Ok tt, painted (shaft :: heads) (__init__ 400 400)) /\
    List.length heads = 4%nat /\
    Forall (fun c => stroke_length_sq c = Some (5 / 4 * (5 * Rabs 20) ^ 2))
      heads.
Proof.
  destruct init_400_400_transform as [Ht Hs].
  split; [exact Ht |]. split; [exact Hs |].
  apply (arrow_head_strokes_length (__init__ 400 400) _ 20 0 0 1 0 5
           true true Ht Hs).
  rewrite !init_400_400_map. intros [= E]. lra.
Defined.

(** ** The style on every view that can be reached *)

Lemma after_resizeEvent (w h : Z) (self : DrawView) :
  after (resizeEvent w h) self =
    after __update_transform (with_height h (with_width w self)).
Proof. reflexivity. Qed.

Lemma after_set_world_bounds (xmin ymin w h : R) (self : DrawView) :
  after (set_world_bounds xmin ymin w h) self =
    after __update_transform
      (with_world_bounds (mkRect xmin ymin w h) self).
Proof. reflexivity. Qed.




Lemma perform_text_pen_current (fm : QFont -> QFontMetrics) (c : Call)
    (self : DrawView) :
  text_pen_current self -> text_pen_current (after (perform fm c) self).
Proof.
  unfold text_pen_current. intros H.
  destruct (is_primitive c) eqn:Hp.
  - rewrite (primitive_keeps text_pen), (primitive_keeps __font_color)
      by easy.
    exact H.
  - destruct c; try discriminate; unfold perform.
    + rewrite after_resizeEvent.
      rewrite (update_transform_keeps text_pen),
        (update_transform_keeps __font_color) by easy.
      exact H.
    + rewrite after_set_world_bounds.
      rewrite (update_transform_keeps text_pen),
        (update_transform_keeps __font_color) by easy.
      exact H.
    + exact H.
    + exact H.
    + exact H.
    + unfold after. cbn. rewrite H. reflexivity.
    + unfold after. destruct b; exact H.
    + unfold after. destruct b; exact H.
    + unfold after. unfold_methods. run.
      destruct (__font_color self) eqn:E; cbn; rewrite ?E; exact H.
    + unfold after. unfold_methods. run.
      destruct (Py.pop (__attribute_stack self))
        as [[[[[[[sc fc] sw] tc] s] f] rest] |]; [| exact H].
      destruct s, f; cbn; rewrite H; reflexivity.
Qed.

Lemma reached_text_pen_current (fm : QFont -> QFontMetrics) (w h : Z)
    (cs : list Call) :
  text_pen_current (reached fm w h cs).
Proof.
  unfold reached.
  assert (H0 : text_pen_current (__init__ w h)).
  { unfold text_pen_current, __init__.
    fold (after __update_transform (fresh w h)).
    now rewrite (update_transform_keeps text_pen),
      (update_transform_keeps __font_color). }
  revert H0. generalize (__init__ w h).
  induction cs as [| c cs IH]; intros self H; [exact H |].
  cbn. apply IH. now apply perform_text_pen_current.
Qed.

(** X13. On every view reached from the constructor by any calls, [text]
    draws with a solid pen of width 1 in the colour last given to
    [text_color] (by the setter or by a restore), or in black if none was
    given; the stroke and fill settings do not enter.  Without a transform
    or a scale it raises [AttributeError]. *)
Theorem text_drawn_in_text_color (fm : QFont -> QFontMetrics) (w h : Z)
    (cs : list Call) (x y : R) (str : string) (n : R) (ha va : string) :
  let self := reached fm w h cs in
  let colour :=
    match __font_color self with Some c => c | None => black end in
  text_pen self = mkPen colour 1 SolidLine /\
  match transform self, scale self with
  | Some _, Some _ =>
      exists (f : QFont) (p : QPointF),
        text fm x y str n ha va self =
          (Py.Ok tt,
           painted [drawText (mkPen colour 1 SolidLine) f p str] self)
  | _, _ =>
      outcome (text fm x y str n ha va) self = Py.Raise Py.AttributeError
  end.
Proof.
  intros self colour.
  pose proof (reached_text_pen_current fm w h cs) as Hp.
  fold self in Hp. unfold text_pen_current in Hp. fold colour in Hp.
  split; [exact Hp |].
  destruct (transform self) as [t |] eqn:Ht;
    destruct (scale self) as [s |] eqn:Hs.
  - eexists. eexists.
    rewrite (text_paints fm self t s x y str n ha va Ht Hs), Hp.
    reflexivity.
  - unfold outcome. unfold_methods. run. now rewrite Hs.
  - unfold outcome. unfold_methods. run. reads Hs. now rewrite Ht.
  - unfold outcome. unfold_methods. run. now rewrite Hs.
Qed.

(** ** Nested saves and restores *)

Lemma perform_keeps_stack (fm : QFont -> QFontMetrics) (c : Call)
    (self : DrawView) :
  is_stack_call c = false ->
  __attribute_stack (after (perform fm c) self) = __attribute_stack self.
Proof.
  intros Hc. destruct (is_primitive c) eqn:Hp.
  - now apply primitive_keeps.
  - destruct c; try discriminate; unfold perform; try reflexivity.
    + rewrite after_resizeEvent.
      now rewrite (update_transform_keeps __attribute_stack).
    + rewrite after_set_world_bounds.
      now rewrite (update_transform_keeps __attribute_stack).
    + unfold after. destruct b; reflexivity.
    + unfold after. destruct b; reflexivity.
Qed.

Lemma perform_keeps_text_color_set (fm : QFont -> QFontMetrics) (c : Call)
    (self : DrawView) :
  __font_color self <> None ->
  __font_color (after (perform fm c) self) <> None.
Proof.
  intros H. destruct (is_primitive c) eqn:Hp.
  - now rewrite (primitive_keeps __font_color).
  - destruct c; try discriminate; unfold perform; try exact H.
    + rewrite after_resizeEvent.
      now rewrite (update_transform_keeps __font_color).
    + rewrite after_set_world_bounds.
      now rewrite (update_transform_keeps __font_color).
    + unfold after. destruct b; exact H.
    + unfold after. destruct b; exact H.
    + unfold after. unfold_methods. run.
      destruct (__font_color self) eqn:E; cbn; rewrite ?E; easy.
    + unfold after. unfold_methods. run.
      destruct (Py.pop (__attribute_stack self))
        as [[[[[[[sc fc] sw] tc] s] f] rest] |]; [| exact H].
      destruct s, f; discriminate.
Qed.

Lemma nesting_stack (fm : QFont -> QFontMetrics) (cs : list Call) :
  forall (d d' : nat) (self : DrawView) (base l : list Attributes),
    nesting d cs = Some d' ->
    __attribute_stack self = base ++ l -> List.length l = d ->
    __font_color self <> None ->
    exists l' : list Attributes,
      __attribute_stack (after_calls fm cs self) = base ++ l' /\
      List.length l' = d' /\
      __font_color (after_calls fm cs self) <> None.
Proof.
  induction cs as [| c cs IH]; intros d d' self base l Hn Hk Hl Hf.
  - cbn in Hn. injection Hn as <-. exists l. now repeat split.
  - pose proof (perform_keeps_text_color_set fm c self Hf) as Hf'.
    destruct (is_stack_call c) eqn:Hc.
    + destruct c; try discriminate.
      * (* push *)
        cbn [nesting] in Hn. cbn [after_calls fold_left].
        destruct (__font_color self) as [col |] eqn:E; [| easy].
        apply (IH (S d) d' _ base
                 (l ++ [(__stroke_color self, __fill_color self,
                         __stroke_width self, col, __stroke self,
                         __fill self)])); try assumption.
        -- unfold after, perform.
           rewrite (push_attributes_saves self col E). cbn [snd].
           cbn [__attribute_stack with_attribute_stack].
           unfold Py.append. now rewrite Hk, app_assoc.
        -- rewrite length_app. cbn. lia.
      * (* pop *)
        cbn [nesting] in Hn. destruct d as [| d0]; [discriminate |].
        cbn [after_calls fold_left].
        destruct (rev l) as [| a r] eqn:Er.
        { apply (f_equal (@List.length Attributes)) in Er.
          rewrite length_rev in Er. cbn in Er. lia. }
        assert (El : l = rev r ++ [a]).
        { rewrite <- (rev_involutive l), Er. reflexivity. }
        destruct a as [[[[[sc fc] sw] tc] s] f].
        destruct (pop_attributes_restores self (base ++ rev r)
                    sc fc sw tc s f) as (_ & _ & Hk' & _).
        { unfold Py.append. now rewrite Hk, El, app_assoc. }
        apply (IH d0 d' _ base (rev r)); try assumption.
        rewrite El, length_app in Hl. cbn in Hl. lia.
    + assert (Hn' : nesting d cs = Some d')
        by (destruct c; try discriminate; exact Hn).
      cbn [after_calls fold_left].
      apply (IH d d' _ base l); try assumption.
      now rewrite perform_keeps_stack.
Qed.

Lemma after_calls_app (fm : QFont -> QFontMetrics) (a b : list Call)
    (self : DrawView) :
  after_calls fm (a ++ b) self = after_calls fm b (after_calls fm a self).
Proof. unfold after_calls. apply fold_left_app. Qed.

(** X14. Saves and restores nest. When [text_color] has been assigned, a
    save, then any calls in which every restore answers an earlier save and
    every save is answered, then a restore, leave the six style attributes
    and the attribute stack as they were before the first save, whatever the
    calls in between changed. *)
Theorem nested_save_restore (fm : QFont -> QFontMetrics) (cs : list Call)
    (self : DrawView) (c : Color) :
  __font_color self = Some c ->
  nesting 0 cs = Some 0%nat ->
  let self' :=
    after_calls fm (PushAttributes :: cs ++ [PopAttributes]) self in
  style_state self' = style_state self /\
  __attribute_stack self' = __attribute_stack self.
Proof.
  intros Hf Hn self'.
  set (saved := (__stroke_color self, __fill_color self, __stroke_width self,
                 c, __stroke self, __fill self)).
  set (self1 := after push_attributes self).
  assert (Hk1 : __attribute_stack self1 =
                Py.append (__attribute_stack self) saved ++ []).
  { unfold self1, after. rewrite (push_attributes_saves self c Hf).
    cbn [snd __attribute_stack with_attribute_stack].
    now rewrite app_nil_r. }
  assert (Hf1 : __font_color self1 <> None).
  { apply (perform_keeps_text_color_set fm PushAttributes self).
    now rewrite Hf. }
  destruct (nesting_stack fm cs 0 0 self1 _ [] Hn Hk1 eq_refl Hf1)
    as (l' & Hk2 & Hl & _).
  destruct l' as [| ? ?]; [| discriminate]. rewrite app_nil_r in Hk2.
  assert (E : self' = after pop_attributes (after_calls fm cs self1)).
  { unfold self'.
    change (after_calls fm (PushAttributes :: cs ++ [PopAttributes]) self)
      with (after_calls fm (cs ++ [PopAttributes]) self1).
    now rewrite after_calls_app. }
  destruct (pop_attributes_restores (after_calls fm cs self1)
              (__attribute_stack self) (__stroke_color self)
              (__fill_color self) (__stroke_width self) c
              (__stroke self) (__fill self) Hk2) as (_ & Hs & Hk & _).
  rewrite E. split; [| exact Hk].
  rewrite Hs. unfold style_state. now rewrite Hf.
Qed.

Lemma nested_save_restore_witness :
  __font_color (after (set_text_color green) (__init__ 400 400)) =
    Some green /\
  nesting 0 nested_calls = Some 0%nat /\
  let self := after (set_text_color green) (__init__ 400 400) in
  let self' :=
    after_calls metrics_40_by_12
      (PushAttributes :: nested_calls ++ [PopAttributes]) self in
  style_state self' = style_state self /\
  __attribute_stack self' = __attribute_stack self.
Proof.
  assert (H1 : __font_color (after (set_text_color green) (__init__ 400 400))
               = Some green) by reflexivity.
  assert (H2 : nesting 0 nested_calls = Some 0%nat) by reflexivity.
  split; [exact H1 |]. split; [exact H2 |].
  exact (nested_save_restore metrics_40_by_12 nested_calls _ green H1 H2).
Defined.

(** ** The mouse handlers *)

Lemma pointer_event (k : R -> R -> Pointer.M unit) (tv : Pointer.Tracked)
    (t : QTransform) (ex ey : Z) :
  transform (Pointer.view tv) = Some t ->
  let p := QTransform.map (fst (QTransform.inverted t))
             (mkPoint (IZR ex) (IZR ey)) in
  Pointer.mouseMoveEvent k ex ey tv =
    k (px p) (py p) (Pointer.with_current_mouse_pos p tv) /\
  Pointer.mousePressEvent k ex ey tv =
    k (px p) (py p) (Pointer.with_current_mouse_pos p tv) /\
  Pointer.mouseReleaseEvent k ex ey tv =
    k (px p) (py p) (Pointer.with_current_mouse_pos p tv).
Proof.
  intros Ht p. destruct tv as [v pos]. cbn in Ht.
  unfold Pointer.mouseMoveEvent, Pointer.mousePressEvent,
    Pointer.mouseReleaseEvent, Pointer.on_view, window_to_world.
  run. cbn [Pointer.view]. rewrite Ht. repeat split.
Qed.

(** X15. A mouse move, press or release at a pixel, on any view reached
    from the constructor: where the transform exists, the handler stores in
    [current_mouse_pos] the world point whose window image is that pixel and
    passes its coordinates to the hook; where it does not, the handler
    raises [AttributeError], the hook is not run and [current_mouse_pos] is
    not assigned. *)
Theorem pointer_reports_world_point (fm : QFont -> QFontMetrics) (w h : Z)
    (cs : list Call) (pos0 : option QPointF)
    (k : R -> R -> Pointer.M unit) (ex ey : Z) :
  let tv := {| Pointer.view := reached fm w h cs;
               Pointer.current_mouse_pos := pos0 |} in
  match transform (reached fm w h cs) with
  | Some _ =>
      exists p : QPointF,
        world_to_window (px p) (py p) (reached fm w h cs) =
          (Py.Ok (mkPoint (IZR ex) (IZR ey)), reached fm w h cs) /\
        Pointer.mouseMoveEvent k ex ey tv =
          k (px p) (py p) (Pointer.with_current_mouse_pos p tv) /\
        Pointer.mousePressEvent k ex ey tv =
          k (px p) (py p) (Pointer.with_current_mouse_pos p tv) /\
        Pointer.mouseReleaseEvent k ex ey tv =
          k (px p) (py p) (Pointer.with_current_mouse_pos p tv)
  | None =>
      Pointer.mouseMoveEvent k ex ey tv = (Py.Raise Py.AttributeError, tv) /\
      Pointer.mousePressEvent k ex ey tv = (Py.Raise Py.AttributeError, tv) /\
      Pointer.mouseReleaseEvent k ex ey tv = (Py.Raise Py.AttributeError, tv)
  end.
Proof.
  intros tv.
  pose proof (reached_transform_invertible fm w h cs) as Hinv.
  destruct (transform (reached fm w h cs)) as [t |] eqn:Ht.
  - exists (QTransform.map (fst (QTransform.inverted t))
              (mkPoint (IZR ex) (IZR ey))).
    split.
    + unfold world_to_window. run. rewrite Ht.
      rewrite point_eta, map_inverted_map; [reflexivity |].
      now apply Hinv.
    + apply (pointer_event k tv t ex ey). exact Ht.
  - unfold Pointer.mouseMoveEvent, Pointer.mousePressEvent,
      Pointer.mouseReleaseEvent, Pointer.on_view, window_to_world.
    run. cbn [Pointer.view tv]. unfold tv. cbn [Pointer.view].
    rewrite Ht. repeat split.
Qed.

(** ** The file actions of the main window *)

Lemma act_requests (a : BeamWindow.Action) (self : BeamWindow.BeamWindow) :
  exists new : list BeamWindow.Request,
    BeamWindow.requests (BeamWindow.act a self) =
      BeamWindow.requests self ++ new /\
    forallb (fun r => negb (names_no_file r)) new = true.
Proof.
  destruct a as [chosen | chosen | chosen]; cbn [BeamWindow.act].
  - unfold BeamWindow.on_open. cbn.
    destruct (String.eqb chosen "") eqn:E; cbn.
    + now exists [BeamWindow.getOpenFileName].
    + eexists. rewrite <- !app_assoc. split; [reflexivity |].
      cbn. now rewrite E.
  - unfold BeamWindow.on_save.
    destruct (String.eqb (BeamWindow.filename self) "") eqn:E; cbn.
    + destruct (String.eqb chosen "") eqn:E'; cbn.
      * now exists [BeamWindow.getSaveFileName].
      * eexists. rewrite <- !app_assoc. split; [reflexivity |].
        cbn. now rewrite E'.
    + rewrite E. cbn. eexists. split; [reflexivity |]. cbn. now rewrite E.
  - unfold BeamWindow.on_save_as. cbn.
    destruct (String.eqb chosen "") eqn:E; cbn.
    + now exists [BeamWindow.getSaveFileName].
    + eexists. rewrite <- !app_assoc. split; [reflexivity |].
      cbn. now rewrite E.
Qed.

(** X16. Whatever file actions are taken (open, save, save as) and whatever
    the dialogs answer (a name, or nothing on cancel), the beam model is
    never asked to open or to save the file with the empty name. *)
Theorem file_actions_name_a_file (l : list BeamWindow.Action)
    (self : BeamWindow.BeamWindow) :
  forallb (fun r => negb (names_no_file r)) (BeamWindow.requests self)
    = true ->
  forallb (fun r => negb (names_no_file r))
    (BeamWindow.requests (BeamWindow.acts l self)) = true.
Proof.
  revert self. induction l as [| a l IH]; intros self H; [exact H |].
  cbn. apply IH.
  destruct (act_requests a self) as (new & E & Hnew).
  rewrite E, forallb_app, H, Hnew. reflexivity.
Qed.

Lemma file_actions_name_a_file_witness :
  forallb (fun r => negb (names_no_file r)) (BeamWindow.requests window_new)
    = true /\
  forallb (fun r => negb (names_no_file r))
    (BeamWindow.requests
       (BeamWindow.acts
          [BeamWindow.Save ""; BeamWindow.Open "a.json"; BeamWindow.Open "";
           BeamWindow.Save "b.json"; BeamWindow.SaveAs ""]
          window_new)) = true.
Proof.
  split; [reflexivity |].
  exact (file_actions_name_a_file _ window_new eq_refl).
Defined.

(** X17. Cancelling the dialogs. A cancelled "save as" leaves the file name
    as it was, so a later save goes to it without asking; a cancelled
    "open" asks nothing of the model but clears the file name, so a later
    save asks for a name again and, if that is cancelled too, saves
    nothing. *)
Theorem cancelled_dialogs (self : BeamWindow.BeamWindow) (x : string) :
  BeamWindow.filename self <> ""%string ->
  let kept := BeamWindow.on_save_as "" self in
  let lost := BeamWindow.on_open "" self in
  BeamWindow.filename kept = BeamWindow.filename self /\
  BeamWindow.requests (BeamWindow.on_save x kept) =
    BeamWindow.requests self ++
      [BeamWindow.getSaveFileName;
       BeamWindow.beam_model_save_as_json (BeamWindow.filename self)] /\
  BeamWindow.filename lost = ""%string /\
  BeamWindow.requests lost =
    BeamWindow.requests self ++ [BeamWindow.getOpenFileName] /\
  BeamWindow.filename (BeamWindow.on_save x lost) = x /\
  BeamWindow.requests (BeamWindow.on_save x lost) =
    BeamWindow.requests self ++
      [BeamWindow.getOpenFileName; BeamWindow.getSaveFileName] ++
      (if String.eqb x "" then []
       else [BeamWindow.beam_model_save_as_json x]).
Proof.
  intros Hf kept lost.
  assert (E : String.eqb (BeamWindow.filename self) "" = false)
    by now apply String.eqb_neq.
  unfold kept, lost, BeamWindow.on_save_as, BeamWindow.on_open,
    BeamWindow.on_save.
  cbn. rewrite E. cbn.
  destruct (String.eqb x "") eqn:Ex; cbn; rewrite ?E; cbn;
    rewrite <- ?app_assoc; repeat split; try reflexivity;
    now apply String.eqb_eq in Ex.
Qed.

Lemma cancelled_dialogs_witness :
  BeamWindow.filename (BeamWindow.on_save "a.json" window_new) <> ""%string /\
  BeamWindow.filename
    (BeamWindow.on_save_as "" (BeamWindow.on_save "a.json" window_new)) =
    "a.json"%string /\
  BeamWindow.filename
    (BeamWindow.on_open "" (BeamWindow.on_save "a.json" window_new)) =
    ""%string.
Proof.
  assert (H : BeamWindow.filename (BeamWindow.on_save "a.json" window_new)
              <> ""%string) by (cbn; discriminate).
  destruct (cancelled_dialogs (BeamWindow.on_save "a.json" window_new)
              "b.json" H) as (H1 & _ & H2 & _).
  split; [exact H |]. split; [exact H1 | exact H2].
Defined.
